(** * jupyter_rfb/_utils.py: image compression policy, output-capture
      context, snapshot HTML and the notebook pruner.

    A shallow embedding of the four pieces of [_utils.py].  External
    codecs and library calls are taken as section variables; everything
    the module itself decides (which encoder is called with which
    buffer, what is saved and restored, which keys are popped) is
    written out as executable definitions. *)

From stdpp Require Import base strings list gmap.
From Stdlib Require Import ZArith Ascii DecimalString.

Local Open Scope string_scope.
Local Open Scope Z_scope.
Local Open Scope list_scope.

(** ** Python-level conventions shared by all parts *)

Module Py.

(** Exception classes that the modelled code can raise or meet. *)
Inductive exn : Type :=
| AttributeError
| TypeError
| KeyError
| IndexError
| NameError
| OtherError (name : string).

(** The result of evaluating an expression: a value or a raised
    exception. *)
Inductive res (A : Type) : Type :=
| Ok (a : A)
| Raise (e : exn).
Arguments Ok {A} a.
Arguments Raise {A} e.

Definition bytes := list Byte.byte.

End Py.
Import Py.

(** ** Part 1: [array2compressed] *)

Module Compress.

(** A numpy array as far as this module looks at it: its [shape], its
    [dtype] name and the samples in row-major order.  The sample type
    is left open: the module never inspects a sample. *)
Record ndarray (sample : Type) : Type := mk_ndarray
  { shape : list nat; dtype : string; data : list sample }.
Arguments mk_ndarray {sample} shape dtype data.
Arguments shape {sample} n.
Arguments dtype {sample} n.
Arguments data {sample} n.

Section Slicing.
Context {sample : Type}.

(** [rows] blocks of [stride] samples each; keep the first [keep]
    samples of every block. *)
Fixpoint take_blocks (rows stride keep : nat) (xs : list sample)
  : list sample :=
  match rows with
  | O => []
  | S rows' =>
      take keep (take stride xs) ++
      take_blocks rows' stride keep (drop stride xs)
  end.

Definition prod_dims (dims : list nat) : nat := foldr Nat.mul 1%nat dims.

(** [array[:, :, :3]]: the third axis is cut down to its first three
    entries.  Only evaluated behind the [len(array.shape) == 3]
    guard, where the slice cannot fail; on fewer axes (where numpy
    raises) the model returns the array unchanged. *)
Definition getitem_rgb (array : ndarray sample) : ndarray sample :=
  match shape array with
  | h :: w :: c :: inner =>
      let k := prod_dims inner in
      mk_ndarray (h :: w :: Nat.min 3 c :: inner) (dtype array)
        (take_blocks (h * w) (c * k) (Nat.min 3 c * k) (data array))
  | _ => array
  end.

(** [len(array.shape) == 3 and array.shape[2] == 4] *)
Definition has_alpha (array : ndarray sample) : bool :=
  (length (shape array) =? 3)%nat &&
  (default 0%nat (shape array !! 2%nat) =? 4)%nat.

(** The value bound to [array] after lines 38-39. *)
Definition drop_alpha (array : ndarray sample) : ndarray sample :=
  if has_alpha array then getitem_rgb array else array.

End Slicing.

(** Calls that leave the module, in the order they are made. *)
Inductive call (sample : Type) : Type :=
| CallPng (array : ndarray sample)
| CallJpg (array : ndarray sample) (quality : Z)
| CallJxl (array : ndarray sample) (lossless : bool)
          (effort numthreads : Z).
Arguments CallPng {sample} array.
Arguments CallJpg {sample} array quality.
Arguments CallJxl {sample} array lossless effort numthreads.

(** A computation logs its external calls and ends in a value or an
    exception; the log survives the exception. *)
Definition M (sample A : Type) : Type := list (call sample) * res A.

Definition ret {sample A} (a : A) : M sample A := ([], Ok a).

Definition bind {sample A B} (m : M sample A) (f : A -> M sample B)
  : M sample B :=
  match m with
  | (t, Ok a) => let '(t', r) := f a in (t ++ t', r)
  | (t, Raise e) => (t, Raise e)
  end.

Notation "x <- m ;; k" := (bind m (fun x => k))
  (at level 100, m at next level, right associativity).

Definition trace {sample A} (m : M sample A) : list (call sample) := m.1.
Definition outcome {sample A} (m : M sample A) : res A := m.2.

Section Compressor.
Context {sample : Type}.

(** [array2png] of [._png] and [array2jpg] of [._jpg] are not part
    of this file; they are taken as given.  The encoders raise on a
    shape or dtype they do not support. *)
Variable png_impl : ndarray sample -> res bytes.
(** [array2jpg] returns [None] when no JPEG encoder could be used. *)
Variable jpg_impl : ndarray sample -> Z -> res (option bytes).
(** [imagecodecs.jpegxl_encode]; [None] when the import at module
    load failed, in which case the name is unbound. *)
Variable jpegxl_encode :
  option (ndarray sample -> bool -> Z -> Z -> res bytes).

(** Lines 15-20: the flag is set exactly when the import worked. *)
Definition jpegxl_usable : bool :=
  match jpegxl_encode with Some _ => true | None => false end.

Definition array2png (array : ndarray sample) : M sample bytes :=
  ([CallPng array], png_impl array).

Definition array2jpg (array : ndarray sample) (quality : Z)
  : M sample (option bytes) :=
  ([CallJpg array quality], jpg_impl array quality).

Definition call_jpegxl_encode (array : ndarray sample) (lossless : bool)
    (effort numthreads : Z) : M sample bytes :=
  match jpegxl_encode with
  | Some enc =>
      ([CallJxl array lossless effort numthreads],
       enc array lossless effort numthreads)
  | None => ([], Raise NameError)
  end.

Definition array2compressed_jxl (array : ndarray sample) (quality : Z)
  : M sample (string * bytes) :=
  result <- (if 100 <=? quality
             then call_jpegxl_encode array true 1 4
             else call_jpegxl_encode array false 1 4) ;;
  ret ("image/jxl", result).

Definition array2compressed (array : ndarray sample) (quality : Z)
  : M sample (string * bytes) :=
  let array := if has_alpha array then getitem_rgb array else array in
  if jpegxl_usable then array2compressed_jxl array quality
  else if 100 <=? quality then
    result <- array2png array ;;
    ret ("image/png", result)
  else
    result <- array2jpg array quality ;;
    match result with
    | Some result => ret ("image/jpeg", result)
    | None =>
        result <- array2png array ;;
        ret ("image/png", result)
    end.

End Compressor.

(** Tag an encoder result with its mimetype; an exception passes
    through. *)
Definition tagged (mimetype : string) (r : res bytes)
  : res (string * bytes) :=
  match r with Ok b => Ok (mimetype, b) | Raise e => Raise e end.

End Compress.


(** ** Part 2: [RFBOutputContext] *)

Module OutputContext.

(** *** The values [print] is called with *)

Inductive pyval : Type :=
| PNone
| PBool (b : bool)
| PInt (z : Z)
| PStr (s : string)
| PStream (id : nat)       (* an object with a [write] method *)
| PObj (text : string).    (* any other object; [text] is its [str()] *)

(** Objects whose [__str__] raises are not among these values. *)

Definition newline : string := String "010"%char "".

Definition py_str (v : pyval) : string :=
  match v with
  | PNone => "None"
  | PBool true => "True"
  | PBool false => "False"
  | PInt z => NilZero.string_of_int (Z.to_int z)
  | PStr s => s
  | PStream id => "<stream>"
  | PObj text => text
  end.

(** [sep.join(parts)] *)
Fixpoint join (sep : string) (parts : list string) : string :=
  match parts with
  | [] => ""
  | [p] => p
  | p :: rest => p +:+ sep +:+ join sep rest
  end.

(** *** The builtin print *)

Definition print_keywords : gset string :=
  {[ "sep"; "end"; "file"; "flush" ]}.

(** [sep] and [end] must be None or a string. *)
Definition text_or (dflt : string) (v : option pyval) : res string :=
  match v with
  | None | Some PNone => Ok dflt
  | Some (PStr s) => Ok s
  | Some _ => Raise TypeError
  end.

(** [file] must be None (standard output) or have a [write] method. *)
Definition stream_of (v : option pyval) : res (option nat) :=
  match v with
  | None | Some PNone => Ok None
  | Some (PStream id) => Ok (Some id)
  | Some _ => Raise AttributeError
  end.

(** The interpreter's [print(args..., kw...)]: the stream it writes to
    ([None] for standard output) and the text it writes there.  An
    unknown keyword is refused when the arguments are parsed, [sep]
    and [end] are checked next, and the [write] method of [file] is
    looked up only when the first piece of text is written. *)
Definition builtin_print (args : list pyval) (kw : gmap string pyval)
  : res (option nat * string) :=
  if decide (dom kw ⊆ print_keywords) then
    match text_or " " (kw !! "sep"), text_or newline (kw !! "end"),
          stream_of (kw !! "file") with
    | Ok sep, Ok end_, Ok file =>
        Ok (file, join sep (py_str <$> args) +:+ end_)
    | Raise e, _, _ | _, Raise e, _ | _, _, Raise e => Raise e
    end
  else Raise TypeError.

(** A call [f(args..., k1=v1, ..., kwargs...)]: a keyword given both
    explicitly and through [kwargs] is a TypeError raised before [f]
    runs. *)
Definition merge_keywords (explicit : list (string * pyval))
    (kwargs : gmap string pyval) : res (gmap string pyval) :=
  if forallb (fun kv => bool_decide (kwargs !! kv.1 = None)) explicit
  then Ok (list_to_map explicit ∪ kwargs)
  else Raise TypeError.

(** *** The process and the widget instances *)

(** What [builtins.print] can be bound to. *)
Inductive print_fn : Type :=
| original_print              (* the interpreter's own print *)
| bound_print (self : nat)    (* [self.print] of the instance at [self] *)
| foreign_print (tag : nat).  (* a callable installed by other code *)

Global Instance print_fn_eq_dec : EqDecision print_fn.
Proof. solve_decision. Defined.

Inductive stream_name : Type := stdout | stderr.

(** The attributes of one instance.  [outputs] is the widget's output
    tuple, to which [append_stdout] and [append_stderr] add one stream
    entry each. *)
Record RFBOutputContext : Type := mk_ctx
  { capture_print : bool;
    _prev_print : option print_fn;
    outputs : list (stream_name * string) }.

(** The class attributes (lines 66-67): what an instance reads before
    anything was assigned on it. *)
Definition class_defaults : RFBOutputContext :=
  mk_ctx false None [].

Record world : Type := mk_world
  { builtins_print : print_fn;
    sys_stdout : list string;
    heap : gmap nat RFBOutputContext }.

Definition inst (w : world) (self : nat) : RFBOutputContext :=
  default class_defaults (heap w !! self).

Definition set_inst (self : nat) (o : RFBOutputContext) (w : world) : world :=
  mk_world (builtins_print w) (sys_stdout w) (<[self := o]> (heap w)).

Definition set_builtins_print (f : print_fn) (w : world) : world :=
  mk_world f (sys_stdout w) (heap w).

Definition append_stream (name : stream_name) (text : string)
    (self : nat) (w : world) : world :=
  let o := inst w self in
  set_inst self
    (mk_ctx (capture_print o) (_prev_print o) (outputs o ++ [(name, text)])) w.

Definition append_stdout := append_stream stdout.
Definition append_stderr := append_stream stderr.

(** An exception in flight: [(etype, value, tb)]. *)
Record exc_info : Type := mk_exc
  { etype : exn; value : string; tb : list string }.

Inductive outcome : Type :=
| Completed
| Raised (e : exc_info).

(** The fresh [io.StringIO] of line 71. *)
Definition string_io : nat := 0%nat.

(** [_original_print(args..., file=f, flush=True, kwargs...)] and then
    [f.getvalue()]. *)
Definition call_original_print (args : list pyval)
    (kwargs : gmap string pyval) : res string :=
  match merge_keywords [("file", PStream string_io); ("flush", PBool true)]
          kwargs with
  | Ok kw =>
      match builtin_print args kw with
      | Ok (_, text) => Ok text
      | Raise e => Raise e
      end
  | Raise e => Raise e
  end.

(** Lines 69-75. *)
Definition print (self : nat) (args : list pyval)
    (kwargs : gmap string pyval) (w : world) : world * res unit :=
  let kwargs := delete "file" kwargs in
  match call_original_print args kwargs with
  | Ok text => (append_stdout text self w, Ok tt)
  | Raise e => (w, Raise e)
  end.

(** Lines 77-82. *)
Definition __enter__ (self : nat) (w : world) : world :=
  let o := inst w self in
  if capture_print o then
    let w := set_inst self
               (mk_ctx (capture_print o) (Some (builtins_print w)) (outputs o))
               w in
    set_builtins_print (bound_print self) w
  else w.

Section Exit.
(** [traceback.format_exception] of the standard library. *)
Variable format_exception : exc_info -> list string.

(** Lines 84-92; the boolean is the truth value of what is
    returned. *)
Definition __exit__ (self : nat) (exc : option exc_info) (w : world)
  : world * bool :=
  let o := inst w self in
  let w :=
    match capture_print o, _prev_print o with
    | true, Some prev =>
        set_inst self (mk_ctx (capture_print o) None (outputs o))
          (set_builtins_print prev w)
    | _, _ => w
    end in
  match exc with
  | Some e =>
      let err := join "" (format_exception e) in
      (append_stderr err self w, true)
  | None => (w, false)
  end.

(** [with self: body]: the body runs between [__enter__] and
    [__exit__]; an exception of the body is swallowed when
    [__exit__] returns a true value and re-raised otherwise. *)
Definition with_ (self : nat) (body : world -> world * outcome)
    (w : world) : world * outcome :=
  let '(w, r) := body (__enter__ self w) in
  match r with
  | Completed => ((__exit__ self None w).1, Completed)
  | Raised e =>
      let '(w, handled) := __exit__ self (Some e) w in
      (w, if handled then Completed else Raised e)
  end.

End Exit.

(** A call [print(args..., kwargs...)] made by code running in the
    process: whatever [builtins.print] is bound to at that moment. *)
Definition call_print (args : list pyval) (kwargs : gmap string pyval)
    (w : world) : world * outcome :=
  match builtins_print w with
  | original_print =>
      match builtin_print args kwargs with
      | Ok (None, text) =>
          (mk_world (builtins_print w) (sys_stdout w ++ [text]) (heap w),
           Completed)
      | Ok (Some _, _) => (w, Completed)
      | Raise e => (w, Raised (mk_exc e "" []))
      end
  | bound_print self =>
      match print self args kwargs w with
      | (w, Ok _) => (w, Completed)
      | (w, Raise e) => (w, Raised (mk_exc e "" []))
      end
  | foreign_print _ => (w, Completed)
  end.

End OutputContext.

(** ** Part 3: [remove_rfb_models_from_nb] *)

Module Pruner.

(** A notebook as [json.load] returns it.  A mapping keeps its entries
    in insertion order, which is the order [d.items()] visits them
    in.  [JNum] stands for ints and floats alike: the function only
    ever asks a number for its truth value or for an attribute it does
    not have. *)
#[warnings="-register-all"]
Inductive json : Type :=
| JNull
| JBool (b : bool)
| JNum (n : Z)
| JStr (s : string)
| JList (items : list json)
| JDict (entries : list (string * json)).

Definition WIDGET : string := "application/vnd.jupyter.widget-view+json".
Definition MARKER : string := "<div class='snapshot-".

(** *** The Python operations the function relies on *)

(** Truth value of an object in [if x:] and [x and y]. *)
Definition truthy (x : json) : bool :=
  match x with
  | JNull => false
  | JBool b => b
  | JNum n => negb (n =? 0)
  | JStr s => negb (String.eqb s "")
  | JList items => match items with [] => false | _ => true end
  | JDict entries => match entries with [] => false | _ => true end
  end.

(** [d.get(key)], [None] standing for a missing key. *)
Fixpoint dict_get (key : string) (entries : list (string * json))
  : option json :=
  match entries with
  | [] => None
  | (k, v) :: rest => if String.eqb k key then Some v else dict_get key rest
  end.

Definition has_key (key : string) (entries : list (string * json)) : bool :=
  match dict_get key entries with Some _ => true | None => false end.

(** [d.pop(key)]: the entry under [key] goes, the others keep their
    order. *)
Definition dict_pop (key : string) (entries : list (string * json))
  : list (string * json) :=
  filter (fun kv => kv.1 ≠ key) entries.

(** [needle in s] for strings. *)
Fixpoint is_substring (needle s : string) : bool :=
  String.prefix needle s ||
  match s with
  | EmptyString => false
  | String _ s' => is_substring needle s'
  end.

(** [x[0]] *)
Definition getitem0 (x : json) : res json :=
  match x with
  | JList (first :: _) => Ok first
  | JList [] => Raise IndexError
  | JStr (String c _) => Ok (JStr (String c ""))
  | JStr EmptyString => Raise IndexError
  | JDict _ => Raise KeyError      (* the keys are strings, 0 is none of them *)
  | JNull | JBool _ | JNum _ => Raise TypeError
  end.

(** [needle in x] for a string [needle]: substring of a string,
    element of a list, key of a mapping. *)
Definition contains (needle : string) (x : json) : res bool :=
  match x with
  | JStr s => Ok (is_substring needle s)
  | JList items =>
      Ok (existsb (fun y => match y with
                            | JStr s => String.eqb s needle
                            | _ => false
                            end) items)
  | JDict entries => Ok (existsb (fun kv => String.eqb kv.1 needle) entries)
  | JNull | JBool _ | JNum _ => Raise TypeError
  end.

(** Lines 161-162: [html_sibling and MARKER in html_sibling[0]]. *)
Definition has_snapshot (d : list (string * json)) : res bool :=
  let html_sibling := default (JList []) (dict_get "text/html" d) in
  if truthy html_sibling then
    match getitem0 html_sibling with
    | Ok first => contains MARKER first
    | Raise e => Raise e
    end
  else Ok false.

(** *** The traversal

    The function changes its argument in place and returns nothing,
    so the model returns the document as it is when the call ends,
    together with the exception that ended it, if any. *)

Definition effect (A : Type) : Type := A * option exn.

Section Visit.
(** The recursive call. *)
Variable rec : json -> effect json.

(** [for v in val: f(v)]; an exception leaves the later elements
    unvisited. *)
Fixpoint each (f : json -> effect json) (val : list json)
  : effect (list json) :=
  match val with
  | [] => ([], None)
  | v :: rest =>
      match f v with
      | (v', Some e) => (v' :: rest, Some e)
      | (v', None) =>
          let '(rest', e) := each f rest in (v' :: rest', e)
      end
  end.

(** Lines 157-159 on the entries of one output: the object under
    "data" is visited when it is truthy. *)
Fixpoint visit_data (entries : list (string * json))
  : effect (list (string * json)) :=
  match entries with
  | [] => ([], None)
  | (k, x) :: rest =>
      if String.eqb k "data" then
        if truthy x then
          let '(x', e) := rec x in ((k, x') :: rest, e)
        else (entries, None)
      else
        let '(rest', e) := visit_data rest in ((k, x) :: rest', e)
  end.

(** [v.get] exists on mappings only. *)
Definition visit_output (v : json) : effect json :=
  match v with
  | JDict entries =>
      let '(entries', e) := visit_data entries in (JDict entries', e)
  | _ => (v, Some AttributeError)
  end.

(** The body of the loop of line 151 for one [(key, val)] of the
    mapping [d]: the value as it is afterwards, whether [key] was
    added to [to_remove], and the exception raised.  A non-list
    under "cells" or "outputs" fails the [isinstance] test and then
    every later [elif], which compare the same key with other
    strings. *)
Definition visit_item (d : list (string * json)) (key : string)
    (val : json) : json * bool * option exn :=
  if String.eqb key "cells" then
    match val with
    | JList vs => let '(vs', e) := each rec vs in (JList vs', false, e)
    | _ => (val, false, None)
    end
  else if String.eqb key "outputs" then
    match val with
    | JList vs =>
        let '(vs', e) := each visit_output vs in (JList vs', false, e)
    | _ => (val, false, None)
    end
  else if String.eqb key WIDGET then
    match has_snapshot d with
    | Ok mark => (val, mark, None)
    | Raise e => (val, false, Some e)
    end
  else (val, false, None).

(** Lines 151-163 over the entries still to visit.  The sibling
    lookup goes to [d] itself: the loop rebinds no key of [d], it
    only changes objects below "cells" and "outputs". *)
Fixpoint visit_items (d entries : list (string * json))
  : list (string * json) * bool * option exn :=
  match entries with
  | [] => ([], false, None)
  | (key, val) :: rest =>
      match visit_item d key val with
      | (val', mark, Some e) => ((key, val') :: rest, mark, Some e)
      | (val', mark, None) =>
          let '(rest', mark', e) := visit_items d rest in
          ((key, val') :: rest', mark || mark', e)
      end
  end.

End Visit.

(** Lines 139-165.  [d.items()] exists on mappings only; the keys in
    [to_remove] (the widget key or nothing) are popped once the loop
    has ended without an exception. *)
Fixpoint remove_rfb_models_from_nb (d : json) : effect json :=
  match d with
  | JDict entries =>
      match visit_items remove_rfb_models_from_nb entries entries with
      | (entries', _, Some e) => (JDict entries', Some e)
      | (entries', to_remove, None) =>
          (JDict (if to_remove then dict_pop WIDGET entries' else entries'),
           None)
      end
  | _ => (d, Some AttributeError)
  end.

(** *** Vocabulary for stating what the traversal does *)

(** Number of nodes of a document. *)
Fixpoint size (d : json) : nat :=
  match d with
  | JList items => S (list_sum (map size items))
  | JDict entries => S (list_sum (map (fun kv => size kv.2) entries))
  | _ => 1
  end.

(** The shape the function takes for granted: the elements of a list
    under "cells" are mappings of that shape, the elements of a list
    under "outputs" are mappings whose "data", when truthy, is a
    mapping of that shape, and next to a widget key "text/html" is
    absent, a string or a list of strings. *)
Definition is_text (x : json) : bool :=
  match x with
  | JStr _ => true
  | JList items =>
      forallb (fun y => match y with JStr _ => true | _ => false end) items
  | _ => false
  end.

Definition sibling_ok (d : list (string * json)) : bool :=
  match dict_get "text/html" d with
  | Some x => is_text x
  | None => true
  end.

Section Shape.
Variable ok : json -> bool.

Fixpoint data_ok (entries : list (string * json)) : bool :=
  match entries with
  | [] => true
  | (k, x) :: rest =>
      if String.eqb k "data" then (if truthy x then ok x else true)
      else data_ok rest
  end.

Definition output_ok (v : json) : bool :=
  match v with
  | JDict entries => data_ok entries
  | _ => false
  end.

Definition item_ok (d : list (string * json)) (key : string) (val : json)
  : bool :=
  if String.eqb key "cells" then
    match val with JList vs => forallb ok vs | _ => true end
  else if String.eqb key "outputs" then
    match val with JList vs => forallb output_ok vs | _ => true end
  else if String.eqb key WIDGET then sibling_ok d
  else true.

Fixpoint items_ok (d entries : list (string * json)) : bool :=
  match entries with
  | [] => true
  | (key, val) :: rest => item_ok d key val && items_ok d rest
  end.
End Shape.

Fixpoint well_shaped (d : json) : bool :=
  match d with
  | JDict entries => items_ok well_shaped entries entries
  | _ => false
  end.

(** The first element of a "text/html" value: the first string of a
    list, the first character of a string. *)
Definition first_text (x : json) : option string :=
  match x with
  | JList (JStr s :: _) => Some s
  | JStr (String c _) => Some (String c "")
  | _ => None
  end.

(** The mapping has a "text/html" entry that is non-empty and whose
    first element contains the marker. *)
Definition snapshot_marked (d : list (string * json)) : bool :=
  match dict_get "text/html" d with
  | Some x =>
      match first_text x with
      | Some s => is_substring MARKER s
      | None => false
      end
  | None => false
  end.

(** The document the spec describes as the outcome: the same tree
    with the widget key taken out of every visited mapping that is
    marked as a snapshot. *)
Section Outcome.
Variable rec : json -> json.

Fixpoint pruned_data (entries : list (string * json))
  : list (string * json) :=
  match entries with
  | [] => []
  | (k, x) :: rest =>
      if String.eqb k "data" then
        (k, if truthy x then rec x else x) :: rest
      else (k, x) :: pruned_data rest
  end.

Definition pruned_output (v : json) : json :=
  match v with
  | JDict entries => JDict (pruned_data entries)
  | _ => v
  end.

Definition pruned_item (key : string) (val : json) : json :=
  if String.eqb key "cells" then
    match val with JList vs => JList (map rec vs) | _ => val end
  else if String.eqb key "outputs" then
    match val with JList vs => JList (map pruned_output vs) | _ => val end
  else val.

Fixpoint pruned_items (entries : list (string * json))
  : list (string * json) :=
  match entries with
  | [] => []
  | (key, val) :: rest => (key, pruned_item key val) :: pruned_items rest
  end.
End Outcome.

Fixpoint pruned (d : json) : json :=
  match d with
  | JDict entries =>
      let entries' := pruned_items pruned entries in
      JDict (if has_key WIDGET entries && snapshot_marked entries
             then dict_pop WIDGET entries' else entries')
  | _ => d
  end.

(** The entries of [pruned (JDict entries)]. *)
Definition pruned_entries (entries : list (string * json))
  : list (string * json) :=
  let entries' := pruned_items pruned entries in
  if has_key WIDGET entries && snapshot_marked entries
  then dict_pop WIDGET entries' else entries'.

(** What a call may have changed, also when it ended in an
    exception: widget entries dropped from visited mappings, and
    nothing else.  [touched d d'] relates a visited mapping before and
    after, [touched_items] its entries, [touched_output] an element of
    an "outputs" list and [touched_data] the entries of such an
    element. *)
Inductive touched : json -> json -> Prop :=
| touched_dict es es' :
    touched_items es es' -> touched (JDict es) (JDict es')
| touched_not_dict d : touched d d
with touched_items
  : list (string * json) -> list (string * json) -> Prop :=
| touched_nil : touched_items [] []
| touched_same k v es es' :
    touched_items es es' -> touched_items ((k, v) :: es) ((k, v) :: es')
| touched_drop v es es' :
    touched_items es es' -> touched_items ((WIDGET, v) :: es) es'
| touched_cells vs vs' es es' :
    Forall2 touched vs vs' -> touched_items es es' ->
    touched_items (("cells", JList vs) :: es) (("cells", JList vs') :: es')
| touched_outputs vs vs' es es' :
    Forall2 touched_output vs vs' -> touched_items es es' ->
    touched_items (("outputs", JList vs) :: es)
                  (("outputs", JList vs') :: es')
with touched_output : json -> json -> Prop :=
| touched_output_same v : touched_output v v
| touched_output_data es es' :
    touched_data es es' -> touched_output (JDict es) (JDict es')
with touched_data
  : list (string * json) -> list (string * json) -> Prop :=
| touched_data_nil : touched_data [] []
| touched_data_here x x' es :
    touched x x' -> touched_data (("data", x) :: es) (("data", x') :: es)
| touched_data_skip k v es es' :
    k <> "data" -> touched_data es es' ->
    touched_data ((k, v) :: es) ((k, v) :: es').

(** The "data" mapping of output [j] of cell [i], when the document
    has one there. *)
Definition data_at (d : json) (i j : nat) : option (list (string * json)) :=
  match d with
  | JDict top =>
      match dict_get "cells" top with
      | Some (JList cells) =>
          match cells !! i with
          | Some (JDict cell) =>
              match dict_get "outputs" cell with
              | Some (JList outs) =>
                  match outs !! j with
                  | Some (JDict out) =>
                      match dict_get "data" out with
                      | Some (JDict data) => Some data
                      | _ => None
                      end
                  | _ => None
                  end
              | _ => None
              end
          | _ => None
          end
      | _ => None
      end
  | _ => None
  end.

End Pruner.

(** ** Part 4: [Snapshot._repr_html_] *)

Module SnapshotHtml.

Definition newline : ascii := "010"%char.
Definition space : ascii := " "%char.

(** *** The string methods used on line 136 *)

(** [s.replace(newline, "")] *)
Fixpoint remove_newlines (s : string) : string :=
  match s with
  | EmptyString => ""
  | String c rest =>
      if Ascii.eqb c newline then remove_newlines rest
      else String c (remove_newlines rest)
  end.

(** [s.replace("    ", "")]: occurrences are taken from the left and do
    not overlap, so a run of spaces loses four at a time. *)
Fixpoint remove_indent (s : string) : string :=
  match s with
  | EmptyString => ""
  | String c1 rest1 =>
      match rest1 with
      | String c2 (String c3 (String c4 rest)) =>
          if Ascii.eqb c1 space && Ascii.eqb c2 space &&
             Ascii.eqb c3 space && Ascii.eqb c4 space
          then remove_indent rest
          else String c1 (remove_indent rest1)
      | _ => String c1 (remove_indent rest1)
      end
  end.

(** The characters [str.strip()] removes, as far as they are ASCII. *)
Definition is_whitespace (c : ascii) : bool :=
  let n := nat_of_ascii c in
  ((9 <=? n) && (n <=? 13) || (28 <=? n) && (n <=? 32))%nat.

Fixpoint lstrip (s : string) : string :=
  match s with
  | EmptyString => ""
  | String c rest => if is_whitespace c then lstrip rest else s
  end.

Fixpoint rstrip (s : string) : string :=
  match s with
  | EmptyString => ""
  | String c rest =>
      match rstrip rest with
      | EmptyString => if is_whitespace c then "" else String c ""
      | rest' => String c rest'
      end
  end.

Definition strip (s : string) : string := rstrip (lstrip s).

(** *** [base64.encodebytes] *)

Definition b64_alphabet : string :=
  "ABCDEFGHIJKLMNOPQRSTUVWXYZabcdefghijklmnopqrstuvwxyz0123456789+/".

Definition b64_char (n : N) : ascii :=
  default "="%char (String.get (N.to_nat n) b64_alphabet).

(** Three bytes give four characters; a last group of one or two bytes
    is padded with "=". *)
Fixpoint b64_groups (bs : bytes) : string :=
  match bs with
  | [] => ""
  | a :: rest1 =>
      let a := Byte.to_N a in
      match rest1 with
      | [] =>
          String (b64_char (a / 4))
            (String (b64_char (a mod 4 * 16)) "==")
      | b :: rest2 =>
          let b := Byte.to_N b in
          match rest2 with
          | [] =>
              String (b64_char (a / 4))
                (String (b64_char (a mod 4 * 16 + b / 16))
                   (String (b64_char (b mod 16 * 4)) "="))
          | c :: rest =>
              let c := Byte.to_N c in
              String (b64_char (a / 4))
                (String (b64_char (a mod 4 * 16 + b / 16))
                   (String (b64_char (b mod 16 * 4 + c / 64))
                      (String (b64_char (c mod 64)) (b64_groups rest))))
          end
      end
  end%N.

(** [binascii.b2a_base64]: one line, ended by a newline. *)
Definition b2a_base64 (bs : bytes) : string :=
  b64_groups bs +:+ String newline "".

(** [encodebytes(s).decode()]: lines of at most 57 bytes each. *)
Definition encodebytes (s : bytes) : string :=
  foldr (fun i acc => b2a_base64 (take 57 (drop i s)) +:+ acc) ""
        ((fun k => 57 * k)%nat <$> seq 0 ((length s + 56) / 57)).

(** [str(n)] for an int. *)
Definition str_int (n : Z) : string := NilZero.string_of_int (Z.to_int n).

(** *** The display object *)

Record Snapshot (sample : Type) : Type := mk_snapshot
  { data : Compress.ndarray sample;
    width : Z;
    height : Z;
    title : string;
    class_name : option string }.
Arguments mk_snapshot {sample} data width height title class_name.
Arguments data {sample} s.
Arguments width {sample} s.
Arguments height {sample} s.
Arguments title {sample} s.
Arguments class_name {sample} s.

(** Line 124: the attribute appears when [class_name] is truthy. *)
Definition class_str (class_name : option string) : string :=
  match class_name with
  | Some (String c name) => "class='" +:+ String c name +:+ "'"
  | Some EmptyString | None => ""
  end.

Definition img_style (width height : Z) : string :=
  "width:" +:+ str_int width +:+ "px;height:" +:+ str_int height +:+ "px;".

Definition tt_style : string :=
  "position: absolute; top:0; left:0; padding:1px 3px; " +:+
  "background: #777; color:#fff; font-size: 90%; font-family:sans-serif; ".

Definition indent12 : string := "            ".
Definition indent16 : string := "                ".
Definition nl : string := String newline "".

(** Lines 130-135 with the fields filled in. *)
Definition html_template (class_str src img_style title : string) : string :=
  nl +:+ indent12 +:+
    "<div " +:+ class_str +:+ " style='position:relative;'>" +:+
  nl +:+ indent16 +:+
    "<img src='" +:+ src +:+ "' style='" +:+ img_style +:+ "' />" +:+
  nl +:+ indent16 +:+
    "<div style='" +:+ tt_style +:+ "'>" +:+ title +:+ "</div>" +:+
  nl +:+ indent12 +:+
    "</div>" +:+
  nl +:+ indent12.

Section Render.
Context {sample : Type}.
(** [array2png] of [._png]. *)
Variable png_impl : Compress.ndarray sample -> res bytes.

(** Lines 118-136. *)
Definition _repr_html_ (self : Snapshot sample) : res string :=
  match png_impl (data self) with
  | Ok png_data =>
      let preamble := "data:image/png;base64," in
      let src := preamble +:+ encodebytes png_data in
      let html :=
        html_template (class_str (class_name self)) src
          (img_style (width self) (height self)) (title self) in
      Ok (strip (remove_indent (remove_newlines html)))
  | Raise e => Raise e
  end.

End Render.

(** *** Vocabulary for stating what the rendering looks like *)

(** Newlines and indentation runs taken out, as line 136 does to the
    whole text. *)
Definition collapse (s : string) : string :=
  remove_indent (remove_newlines s).

(** Number of positions of [s] at which [pat] starts. *)
Fixpoint count_sub (pat s : string) : nat :=
  (if String.prefix pat s then 1 else 0) +
  match s with
  | EmptyString => 0
  | String _ rest => count_sub pat rest
  end.

Fixpoint has_char (c : ascii) (s : string) : bool :=
  match s with
  | EmptyString => false
  | String c' rest => Ascii.eqb c' c || has_char c rest
  end.

Fixpoint all_chars (p : ascii -> bool) (s : string) : bool :=
  match s with
  | EmptyString => true
  | String c rest => p c && all_chars p rest
  end.

(** The first, respectively last, character exists and is not
    whitespace. *)
Definition starts_solid (s : string) : bool :=
  match s with
  | EmptyString => false
  | String c _ => negb (is_whitespace c)
  end.

Fixpoint ends_solid (s : string) : bool :=
  match s with
  | EmptyString => false
  | String c rest =>
      match rest with
      | EmptyString => negb (is_whitespace c)
      | _ => ends_solid rest
      end
  end.

(** The characters base64 text is made of. *)
Definition is_b64 (c : ascii) : bool :=
  has_char c b64_alphabet || Ascii.eqb c "="%char.

(** The characters of a printed integer. *)
Definition is_int_char (c : ascii) : bool := has_char c "-0123456789".

(** No newline and no four spaces in a row. *)
Definition tidy (s : string) : bool :=
  negb (has_char newline s) && negb (Pruner.is_substring "    " s).

Definition class_attr (class_name : option string) : string :=
  match class_name with
  | Some (String c name) => "class='" +:+ collapse (String c name) +:+ "'"
  | Some EmptyString | None => ""
  end.

(** The rendering, written out. *)
Definition expected_html (class_name : option string) (png_data : bytes)
    (width height : Z) (title : string) : string :=
  "<div " +:+ class_attr class_name +:+ " style='position:relative;'>" +:+
  "<img src='data:image/png;base64," +:+ collapse (encodebytes png_data) +:+
  "' style='width:" +:+ str_int width +:+ "px;height:" +:+ str_int height +:+
  "px;' />" +:+
  "<div style='" +:+ tt_style +:+ "'>" +:+ collapse title +:+ "</div></div>".

(** The rendering when title and class name need no collapsing: the
    fields appear as they are, the base64 text without its line
    breaks. *)
Definition rendered_html (class_name : option string) (png_data : bytes)
    (width height : Z) (title : string) : string :=
  "<div " +:+ class_str class_name +:+ " style='position:relative;'>" +:+
  "<img src='data:image/png;base64," +:+
  remove_newlines (encodebytes png_data) +:+
  "' style='" +:+ img_style width height +:+ "' />" +:+
  "<div style='" +:+ tt_style +:+ "'>" +:+ title +:+ "</div></div>".

(** [p] and [a] differ at a position both of them have. *)
Fixpoint mismatch (p a : string) : bool :=
  match p, a with
  | String x p', String y a' => if Ascii.eqb x y then mismatch p' a' else true
  | _, _ => false
  end.

End SnapshotHtml.

(** ** Further vocabulary *)

Module CompressCalls.
Import Compress.

(** The buffer an external call is made on. *)
Definition call_array {sample} (c : call sample) : ndarray sample :=
  match c with
  | CallPng array => array
  | CallJpg array _ => array
  | CallJxl array _ _ _ => array
  end.

(** A call that cannot lose information: the PNG encoder, or the
    JPEG-XL encoder in lossless mode. *)
Definition is_lossless_call {sample} (c : call sample) : bool :=
  match c with
  | CallPng _ => true
  | CallJpg _ _ => false
  | CallJxl _ lossless _ _ => lossless
  end.

Definition is_png_call {sample} (c : call sample) : bool :=
  match c with CallPng _ => true | _ => false end.

End CompressCalls.

Module PrintKeywords.
Import OutputContext.

(** A value [sep] or [end] may have: missing, None or a string. *)
Definition keyword_text_ok (v : option pyval) : bool :=
  match v with
  | None | Some PNone | Some (PStr _) => true
  | Some _ => false
  end.

(** The keyword arguments [RFBOutputContext.print] gets through: no
    [flush], nothing but [sep], [end] and [file], and [sep] and [end]
    of the right type. *)
Definition print_accepts (kwargs : gmap string pyval) : bool :=
  bool_decide (kwargs !! "flush" = None) &&
  bool_decide (dom kwargs ⊆ print_keywords) &&
  keyword_text_ok (kwargs !! "sep") &&
  keyword_text_ok (kwargs !! "end").

End PrintKeywords.

Module SnapshotBundle.
Import SnapshotHtml.

Section Bundle.
Context {sample : Type}.
Variable png_impl : Compress.ndarray sample -> res bytes.

End Bundle.

(** Number of spaces a text begins with. *)
Fixpoint leading_spaces (s : string) : nat :=
  match s with
  | String c rest => if Ascii.eqb c space then S (leading_spaces rest) else 0
  | EmptyString => 0
  end.

(** [n] spaces. *)
Fixpoint spaces (n : nat) : string :=
  match n with
  | O => ""
  | S n' => String space (spaces n')
  end.

End SnapshotBundle.
(** Fixtures used to run the definitions on concrete inputs. *)
Module Fixtures.
Import Compress.

(** A 1x2 RGBA image and a 1x2 greyscale image, 8-bit samples. *)
Definition rgba_1x2 : ndarray Z :=
  mk_ndarray [1%nat; 2%nat; 4%nat] "uint8" [10; 20; 30; 255; 40; 50; 60; 128].
Definition grey_1x2 : ndarray Z :=
  mk_ndarray [1%nat; 2%nat] "uint8" [7; 9].

(** Stand-in codecs: each one writes a tag byte and the number of
    samples it was given, enough to tell the calls apart. *)
Definition demo_payload (tag : Byte.byte) (a : ndarray Z) : bytes :=
  tag :: map (fun _ => Byte.x01) (data a).
Definition demo_png (a : ndarray Z) : res bytes :=
  Ok (demo_payload Byte.x50 a).
Definition demo_jpg (a : ndarray Z) (q : Z) : res (option bytes) :=
  Ok (Some (demo_payload Byte.x4a a)).
Definition demo_jpg_none (a : ndarray Z) (q : Z) : res (option bytes) :=
  Ok None.
Definition demo_jxl (a : ndarray Z) (lossless : bool) (effort threads : Z)
  : res bytes :=
  Ok (demo_payload (if lossless then Byte.x4c else Byte.x6c) a).
End Fixtures.


Module CtxFixtures.
Import OutputContext.

(** A process in which instance 1 was created with
    [capture_print = True] and nothing has been printed yet. *)
Definition capturing : world :=
  mk_world original_print [] {[ 1%nat := mk_ctx true None [] ]}.

(** A traceback formatter that lists the frames and then the
    message. *)
Definition demo_format (e : exc_info) : list string := tb e ++ [value e].

Definition value_error : exc_info :=
  mk_exc (OtherError "ValueError") "ValueError: x" ["Traceback: "].

(** Scope bodies: [pass], [raise ValueError("x")], a nested
    [with self: pass] on the same instance, and
    [self.capture_print = False]. *)
Definition body_pass (w : world) : world * outcome := (w, Completed).
Definition body_raise (w : world) : world * outcome := (w, Raised value_error).
Definition body_reenter (self : nat) (w : world) : world * outcome :=
  with_ demo_format self body_pass w.
Definition body_disable (self : nat) (w : world) : world * outcome :=
  let o := inst w self in
  (set_inst self (mk_ctx false (_prev_print o) (outputs o)) w, Completed).
End CtxFixtures.

Module NbFixtures.
Import Pruner.

Definition snapshot_html : json :=
  JList [JStr "<div class='snapshot-foo'>...</div>"].
Definition plain_html : json := JList [JStr "<p>hello</p>"].

Definition output_with (html : json) : json :=
  JDict [("output_type", JStr "display_data");
         ("data", JDict [(WIDGET, JDict [("model_id", JStr "abc")]);
                         ("text/html", html)])].

(** One cell with a snapshot output and a sibling output without the
    marker. *)
Definition notebook : json :=
  JDict [("cells",
          JList [JDict [("cell_type", JStr "code");
                        ("outputs",
                         JList [output_with snapshot_html;
                                output_with plain_html])]]);
         ("nbformat", JNum 4)].

(** The same notebook after pruning. *)
Definition notebook_pruned : json :=
  JDict [("cells",
          JList [JDict [("cell_type", JStr "code");
                        ("outputs",
                         JList [JDict [("output_type", JStr "display_data");
                                       ("data",
                                        JDict [("text/html", snapshot_html)])];
                                output_with plain_html])]]);
         ("nbformat", JNum 4)].

(** A document that holds the widget key itself, next to a
    snapshot. *)
Definition marked_document : json :=
  JDict [(WIDGET, JDict [("model_id", JStr "abc")]);
         ("text/html", snapshot_html);
         ("metadata", JDict []);
         ("nbformat", JNum 4)].

(** Documents that are not notebooks. *)
Definition cells_of_numbers : json := JDict [("cells", JList [JNum 1])].
Definition html_is_number : json :=
  JDict [(WIDGET, JDict []); ("text/html", JNum 5)].
End NbFixtures.

Module HtmlFixtures.
Import SnapshotHtml.

(** The bytes of "hello" and a stand-in PNG encoder that returns
    them. *)
Definition hello : bytes :=
  [Byte.x68; Byte.x65; Byte.x6c; Byte.x6c; Byte.x6f].
Definition hello_png (a : Compress.ndarray Z) : res bytes := Ok hello.

Definition grey_2x2 : Compress.ndarray Z :=
  Compress.mk_ndarray [2%nat; 2%nat] "uint8" [0; 64; 128; 255].

Definition snap (title : string) (class_name : option string) : Snapshot Z :=
  mk_snapshot grey_2x2 10 10 title class_name.
End HtmlFixtures.

Module MoreFixtures.
Import OutputContext.

(** A process in which no instance has been given any attribute:
    instance 1 reads the class defaults and does not capture. *)
Definition untouched : world := mk_world original_print [] ∅.

(** A process with two capturing instances, 1 and 2. *)
Definition two_capturing : world :=
  mk_world original_print []
    {[ 1%nat := mk_ctx true None []; 2%nat := mk_ctx true None [] ]}.

(** A "data" mapping holding a widget view next to the given HTML. *)
Definition data_with_html (html : string) : list (string * Pruner.json) :=
  [(Pruner.WIDGET, Pruner.JDict [("model_id", Pruner.JStr "abc")]);
   ("text/html", Pruner.JList [Pruner.JStr html])].

End MoreFixtures.
(** * Properties *)

(** ** Image compressor *)

Section CompressorFacts.
Import Compress.
Context {sample : Type}.
Variable png_impl : ndarray sample -> res bytes.
Variable jpg_impl : ndarray sample -> Z -> res (option bytes).

Implicit Types (array : ndarray sample) (quality : Z).

Lemma getitem_rgb_shape array h w :
  shape array = [h; w; 4%nat] -> shape (getitem_rgb array) = [h; w; 3%nat].
Proof. intros Hs. unfold getitem_rgb. now rewrite Hs. Qed.

Lemma has_alpha_shape array h w :
  shape array = [h; w; 4%nat] -> has_alpha array = true.
Proof. intros Hs. unfold has_alpha. now rewrite Hs. Qed.

Lemma has_alpha_sliced array h w :
  shape array = [h; w; 4%nat] -> has_alpha (getitem_rgb array) = false.
Proof.
  intros Hs. unfold has_alpha.
  now rewrite (getitem_rgb_shape _ _ _ Hs).
Qed.

Lemma drop_alpha_plain array :
  has_alpha array = false -> drop_alpha array = array.
Proof. unfold drop_alpha. now intros ->. Qed.

Lemma bind_call {A B} (c : call sample) (r : res A) (f : A -> M sample B) :
  bind ([c], r) f =
  match r with
  | Ok a => (c :: trace (f a), outcome (f a))
  | Raise e => ([c], Raise e)
  end.
Proof. destruct r as [a|e]; simpl; [now destruct (f a)|reflexivity]. Qed.

(** C1 (as amended): without a JPEG-XL encoder and with quality >= 100
    the only external call is the PNG encoder, on the buffer as it
    stands after the alpha channel was dropped, and the result is
    "image/png" with that encoder's output; an exception of the
    encoder propagates.  The buffer the encoder gets is the one passed
    in when that has no RGBA channel axis, and its [:, :, :3] slice
    when it has one. *)
Theorem array2compressed_png array quality :
  100 <= quality ->
  array2compressed png_impl jpg_impl None array quality =
    ([CallPng (drop_alpha array)],
     tagged "image/png" (png_impl (drop_alpha array)))
  /\ (has_alpha array = false -> drop_alpha array = array)
  /\ (has_alpha array = true -> drop_alpha array = getitem_rgb array).
Proof.
  intros Hq. split; [|split; [apply drop_alpha_plain|]].
  - unfold array2compressed, jpegxl_usable, array2png.
    fold (drop_alpha array).
    apply Z.leb_le in Hq. rewrite Hq, bind_call.
    now destruct (png_impl _).
  - unfold drop_alpha. now intros ->.
Qed.

(** C2: without a JPEG-XL encoder and with quality < 100 the JPEG
    encoder is called first; its bytes come back as "image/jpeg", and
    when it returns None the PNG encoder is called on the same buffer
    and the result is "image/png". *)
Theorem array2compressed_jpeg array quality :
  quality < 100 ->
  let a := drop_alpha array in
  array2compressed png_impl jpg_impl None array quality =
    match jpg_impl a quality with
    | Ok (Some b) => ([CallJpg a quality], Ok ("image/jpeg", b))
    | Ok None =>
        ([CallJpg a quality; CallPng a], tagged "image/png" (png_impl a))
    | Raise e => ([CallJpg a quality], Raise e)
    end.
Proof.
  intros Hq a.
  unfold array2compressed, jpegxl_usable, array2jpg, array2png.
  fold (drop_alpha array). fold a.
  apply Z.leb_gt in Hq. rewrite Hq, bind_call.
  destruct (jpg_impl a quality) as [[b|]|e]; try reflexivity.
  rewrite bind_call. now destruct (png_impl a).
Qed.

Section AnyJxl.
Variable jpegxl_encode :
  option (ndarray sample -> bool -> Z -> Z -> res bytes).

(** C3: an (h, w, 4) buffer compresses to exactly what its
    (h, w, 3) slice compresses to, whichever encoder path is
    taken. *)
Theorem array2compressed_alpha_stripped array quality h w :
  shape array = [h; w; 4%nat] ->
  array2compressed png_impl jpg_impl jpegxl_encode array quality =
  array2compressed png_impl jpg_impl jpegxl_encode
    (getitem_rgb array) quality.
Proof.
  intros Hs. unfold array2compressed.
  rewrite (has_alpha_shape _ _ _ Hs), (has_alpha_sliced _ _ _ Hs).
  reflexivity.
Qed.
End AnyJxl.

(** C10: when the JPEG-XL encoder was imported, every call goes to
    it alone (lossless exactly when quality >= 100, effort 1, four
    threads) and the mimetype is "image/jxl"; neither the PNG nor the
    JPEG encoder is called. *)
Theorem array2compressed_jxl_only
    (enc : ndarray sample -> bool -> Z -> Z -> res bytes)
    array quality :
  let a := drop_alpha array in
  let lossless := 100 <=? quality in
  jpegxl_usable (Some enc) = true /\
  array2compressed png_impl jpg_impl (Some enc) array quality =
    ([CallJxl a lossless 1 4], tagged "image/jxl" (enc a lossless 1 4)).
Proof.
  intros a lossless. split; [reflexivity|].
  unfold array2compressed, array2compressed_jxl, call_jpegxl_encode.
  fold (drop_alpha array). fold a. fold lossless. simpl jpegxl_usable. cbv iota.
  destruct lossless; rewrite bind_call; now destruct (enc a _ 1 4).
Qed.

End CompressorFacts.

Lemma array2compressed_png_witness :
  100 <= 100 /\
  Compress.array2compressed Fixtures.demo_png Fixtures.demo_jpg None
    Fixtures.rgba_1x2 100 =
  ([Compress.CallPng (Compress.mk_ndarray [1%nat; 2%nat; 3%nat] "uint8"
                        [10; 20; 30; 40; 50; 60])],
   Ok ("image/png", [Byte.x50; Byte.x01; Byte.x01; Byte.x01;
                     Byte.x01; Byte.x01; Byte.x01])).
Proof.
  split; [lia|].
  exact (proj1 (array2compressed_png Fixtures.demo_png Fixtures.demo_jpg
                  Fixtures.rgba_1x2 100 ltac:(lia))).
Defined.

(** C1 (as stated) fails on an RGBA buffer: the PNG encoder is handed
    the (1, 2, 3) slice, so what comes back is not its output for the
    buffer that was passed in, which has eight samples. *)
Lemma array2compressed_png_not_of_rgba :
  100 <= 100 /\
  Compress.trace
    (Compress.array2compressed Fixtures.demo_png Fixtures.demo_jpg None
       Fixtures.rgba_1x2 100) <> [Compress.CallPng Fixtures.rgba_1x2] /\
  Compress.outcome
    (Compress.array2compressed Fixtures.demo_png Fixtures.demo_jpg None
       Fixtures.rgba_1x2 100) <>
  Compress.tagged "image/png" (Fixtures.demo_png Fixtures.rgba_1x2).
Proof. split; [lia|]. split; discriminate. Qed.

Lemma array2compressed_jpeg_witness :
  90 < 100 /\
  Compress.array2compressed Fixtures.demo_png Fixtures.demo_jpg_none None
    Fixtures.grey_1x2 90 =
  ([Compress.CallJpg Fixtures.grey_1x2 90; Compress.CallPng Fixtures.grey_1x2],
   Ok ("image/png", [Byte.x50; Byte.x01; Byte.x01])).
Proof.
  split; [lia|].
  exact (array2compressed_jpeg Fixtures.demo_png Fixtures.demo_jpg_none
           Fixtures.grey_1x2 90 ltac:(lia)).
Defined.

Lemma array2compressed_alpha_stripped_witness :
  Compress.shape Fixtures.rgba_1x2 = [1%nat; 2%nat; 4%nat] /\
  Compress.array2compressed Fixtures.demo_png Fixtures.demo_jpg None
    Fixtures.rgba_1x2 90 =
  Compress.array2compressed Fixtures.demo_png Fixtures.demo_jpg None
    (Compress.getitem_rgb Fixtures.rgba_1x2) 90.
Proof.
  split; [reflexivity|].
  exact (array2compressed_alpha_stripped Fixtures.demo_png Fixtures.demo_jpg
           None Fixtures.rgba_1x2 90 1%nat 2%nat eq_refl).
Defined.

(** With a JPEG-XL encoder at hand the RGBA fixture goes to it, alpha
    dropped, lossy at quality 90. *)
Example array2compressed_jxl_example :
  Compress.array2compressed Fixtures.demo_png Fixtures.demo_jpg
    (Some Fixtures.demo_jxl) Fixtures.rgba_1x2 90 =
  ([Compress.CallJxl (Compress.getitem_rgb Fixtures.rgba_1x2) false 1 4],
   Ok ("image/jxl", [Byte.x6c; Byte.x01; Byte.x01; Byte.x01;
                     Byte.x01; Byte.x01; Byte.x01])).
Proof. reflexivity. Qed.

(** ** Output capture context *)

Section ContextFacts.
Import OutputContext.

Implicit Types (w : world) (self : nat) (o : RFBOutputContext).

Lemma inst_set_inst self o w : inst (set_inst self o w) self = o.
Proof. unfold inst, set_inst; simpl. now rewrite lookup_insert_eq. Qed.

Lemma inst_set_builtins_print f self w :
  inst (set_builtins_print f w) self = inst w self.
Proof. reflexivity. Qed.

Lemma builtins_print_set_inst self o w :
  builtins_print (set_inst self o w) = builtins_print w.
Proof. reflexivity. Qed.

Lemma builtins_print_append name text self w :
  builtins_print (append_stream name text self w) = builtins_print w.
Proof. reflexivity. Qed.

Lemma outputs_append name text self w :
  outputs (inst (append_stream name text self w) self) =
  outputs (inst w self) ++ [(name, text)].
Proof. unfold append_stream. now rewrite inst_set_inst. Qed.

Lemma prev_print_append name text self w :
  _prev_print (inst (append_stream name text self w) self) =
  _prev_print (inst w self).
Proof. unfold append_stream. now rewrite inst_set_inst. Qed.

(** What [__enter__] does on a capturing instance. *)
Lemma enter_capturing self w :
  capture_print (inst w self) = true ->
  builtins_print (__enter__ self w) = bound_print self /\
  _prev_print (inst (__enter__ self w) self) = Some (builtins_print w) /\
  capture_print (inst (__enter__ self w) self) = true /\
  outputs (inst (__enter__ self w) self) = outputs (inst w self).
Proof.
  intros Hc. unfold __enter__. rewrite Hc.
  rewrite inst_set_builtins_print, inst_set_inst. simpl. auto.
Qed.

Lemma enter_not_capturing self w :
  capture_print (inst w self) = false -> __enter__ self w = w.
Proof. intros Hc. unfold __enter__. now rewrite Hc. Qed.

Section WithFormatter.
Variable format_exception : exc_info -> list string.

Abbreviation exit := (__exit__ format_exception).
Abbreviation scope := (with_ format_exception).

(** The restoring half of [__exit__], whatever [exc] is. *)
Lemma exit_restores self exc w prev :
  capture_print (inst w self) = true ->
  _prev_print (inst w self) = Some prev ->
  builtins_print (exit self exc w).1 = prev /\
  _prev_print (inst (exit self exc w).1 self) = None.
Proof.
  intros Hc Hp. unfold __exit__. rewrite Hc, Hp.
  destruct exc as [e|]; unfold append_stderr; cbn [fst].
  - rewrite builtins_print_append, prev_print_append, inst_set_inst.
    now split.
  - rewrite inst_set_inst. now split.
Qed.

Lemma exit_outputs self exc w :
  outputs (inst (exit self exc w).1 self) =
  outputs (inst w self) ++
  match exc with
  | Some e => [(stderr, join "" (format_exception e))]
  | None => []
  end.
Proof.
  unfold __exit__.
  assert (Hsame : forall w0,
    w0 = match capture_print (inst w self), _prev_print (inst w self) with
         | true, Some prev =>
             set_inst self
               (mk_ctx (capture_print (inst w self)) None
                  (outputs (inst w self)))
               (set_builtins_print prev w)
         | _, _ => w
         end ->
    outputs (inst w0 self) = outputs (inst w self)).
  { intros w0 ->.
    destruct (capture_print (inst w self)), (_prev_print (inst w self));
      try reflexivity.
    now rewrite inst_set_inst. }
  destruct exc as [e|]; unfold append_stderr; cbn [fst].
  - rewrite outputs_append. f_equal. now apply Hsame.
  - rewrite app_nil_r. now apply Hsame.
Qed.

Lemma scope_world self body w w' r :
  body (__enter__ self w) = (w', r) ->
  (scope self body w).1 =
  (exit self (match r with Completed => None | Raised e => Some e end) w').1.
Proof.
  intros Hb. unfold with_. rewrite Hb.
  destruct r as [|e]; [reflexivity|].
  now destruct (exit self (Some e) w').
Qed.

(** C4 (as amended): on an instance whose capture flag is set, entry
    saves the current process-wide print function and installs the
    instance's own print method; and when, at exit, the flag is
    still set and the saved reference is still the one stored at
    entry, exit puts the pre-entry function back and clears the
    saved reference, whether the body completed or raised. *)
Theorem scope_restores_print self body w w' r :
  capture_print (inst w self) = true ->
  body (__enter__ self w) = (w', r) ->
  capture_print (inst w' self) = true ->
  _prev_print (inst w' self) = Some (builtins_print w) ->
  builtins_print (__enter__ self w) = bound_print self /\
  _prev_print (inst (__enter__ self w) self) = Some (builtins_print w) /\
  builtins_print (scope self body w).1 = builtins_print w /\
  _prev_print (inst (scope self body w).1 self) = None.
Proof.
  intros Hc Hb Hc' Hp'.
  destruct (enter_capturing self w Hc) as (He1 & He2 & _).
  rewrite (scope_world _ _ _ _ _ Hb).
  split; [exact He1|]. split; [exact He2|].
  now apply exit_restores.
Qed.

(** C5: when the body of the scope raises, [__exit__] appends the
    joined formatted traceback to the instance's outputs as one
    stderr entry and returns True, so the [with] statement
    completes normally. *)
Theorem scope_swallows_exception self body w w' e :
  body (__enter__ self w) = (w', Raised e) ->
  (exit self (Some e) w').2 = true /\
  (scope self body w).2 = Completed /\
  outputs (inst (scope self body w).1 self) =
    outputs (inst w' self) ++ [(stderr, join "" (format_exception e))].
Proof.
  intros Hb. split; [reflexivity|]. split.
  - unfold with_. rewrite Hb. reflexivity.
  - rewrite (scope_world _ _ _ _ _ Hb). apply exit_outputs.
Qed.

End WithFormatter.

(** [print("a", "b")] appends exactly "a b" and a newline. *)
Example print_a_b self w :
  print self [PStr "a"; PStr "b"] ∅ w =
  (append_stdout ("a b" +:+ newline) self w, Ok tt).
Proof. reflexivity. Qed.

Lemma merge_flush_clash (kwargs : gmap string pyval) v :
  kwargs !! "flush" = Some v ->
  merge_keywords [("file", PStream string_io); ("flush", PBool true)]
    (delete "file" kwargs) = Raise TypeError.
Proof.
  intros Hf. unfold merge_keywords. simpl.
  rewrite lookup_delete_eq.
  rewrite lookup_delete_ne by discriminate. rewrite Hf.
  reflexivity.
Qed.

Lemma builtin_print_ignores_flush args (kw : gmap string pyval) v :
  builtin_print args (<["flush" := v]> kw) = builtin_print args kw.
Proof.
  unfold builtin_print.
  rewrite !lookup_insert_ne by discriminate.
  assert (Hdom : dom (<["flush" := v]> kw) ⊆ print_keywords <->
                 dom kw ⊆ print_keywords).
  { rewrite dom_insert_L. split; intros H x Hx.
    - apply H, elem_of_union. now right.
    - apply elem_of_union in Hx as [Hx|Hx]; [|now apply H].
      apply elem_of_singleton in Hx. subst x.
      unfold print_keywords. rewrite !elem_of_union, !elem_of_singleton.
      tauto. }
  destruct (decide (dom (<["flush" := v]> kw) ⊆ print_keywords)),
    (decide (dom kw ⊆ print_keywords)); tauto.
Qed.

(** Without a [flush] keyword the text appended is the text the
    standard print writes for the same arguments and keywords, the
    caller's [file] being replaced by the internal buffer. *)
Lemma print_as_builtin self args (kwargs : gmap string pyval) w :
  kwargs !! "flush" = None ->
  print self args kwargs w =
  match builtin_print args (<["file" := PStream string_io]> kwargs) with
  | Ok (_, text) => (append_stdout text self w, Ok tt)
  | Raise e => (w, Raise e)
  end.
Proof.
  intros Hf. unfold print, call_original_print, merge_keywords.
  cbn [forallb fst]. rewrite lookup_delete_eq.
  rewrite lookup_delete_ne by discriminate. rewrite Hf.
  rewrite !bool_decide_eq_true_2 by reflexivity. cbn [andb].
  replace (list_to_map [("file", PStream string_io); ("flush", PBool true)]
             ∪ delete "file" kwargs)
    with (<["flush" := PBool true]>
            (<["file" := PStream string_io]> kwargs)).
  - rewrite builtin_print_ignores_flush.
    destruct (builtin_print _ _) as [[? text]|e]; reflexivity.
  - apply map_eq. intros k. cbn [list_to_map foldr uncurry].
    rewrite <- !insert_union_l, (left_id_L ∅ (∪)). cbn [fst snd].
    destruct (decide (k = "file")) as [->|Hfile]; [now simplify_map_eq|].
    destruct (decide (k = "flush")) as [->|Hflush]; now simplify_map_eq.
Qed.

(** C6 (where the code departs from it): a [flush] keyword, which the
    standard print accepts, makes [RFBOutputContext.print] raise
    TypeError and append nothing, because [flush=True] is passed a
    second time next to the caller's keywords. *)
Theorem print_rejects_flush self args (kwargs : gmap string pyval) v w :
  kwargs !! "flush" = Some v ->
  print self args kwargs w = (w, Raise TypeError).
Proof.
  intros Hf. unfold print, call_original_print.
  now rewrite (merge_flush_clash _ _ Hf).
Qed.

End ContextFacts.

Lemma scope_restores_print_witness :
  let w := CtxFixtures.capturing in
  OutputContext.builtins_print
    (OutputContext.with_ CtxFixtures.demo_format 1 CtxFixtures.body_raise w).1
  = OutputContext.original_print.
Proof.
  refine (proj1 (proj2 (proj2
    (scope_restores_print CtxFixtures.demo_format 1%nat CtxFixtures.body_raise
       CtxFixtures.capturing _ _ _ _ _ _)))).
  - reflexivity.
  - reflexivity.
  - vm_compute. reflexivity.
  - vm_compute. reflexivity.
Defined.

Lemma scope_swallows_exception_witness :
  (OutputContext.with_ CtxFixtures.demo_format 1 CtxFixtures.body_raise
     CtxFixtures.capturing).2 = OutputContext.Completed.
Proof.
  refine (proj1 (proj2
    (scope_swallows_exception CtxFixtures.demo_format 1%nat
       CtxFixtures.body_raise CtxFixtures.capturing _ _ _))).
  reflexivity.
Defined.

Lemma print_rejects_flush_witness :
  OutputContext.print 1 [OutputContext.PStr "a"]
    {[ "flush" := OutputContext.PBool true ]} CtxFixtures.capturing
  = (CtxFixtures.capturing, Raise TypeError).
Proof.
  apply (print_rejects_flush 1%nat _ _ (OutputContext.PBool true)).
  reflexivity.
Defined.

(** The standard print takes the same call without complaint. *)
Example builtin_print_accepts_flush :
  OutputContext.builtin_print [OutputContext.PStr "a"]
    {[ "flush" := OutputContext.PBool true ]}
  = Ok (None, "a" +:+ OutputContext.newline).
Proof. vm_compute. reflexivity. Qed.

(** C4 (as stated) fails: a body that enters the same instance again
    leaves the saved reference cleared, so the outer exit skips the
    restore and the instance's print stays installed. *)
Lemma scope_reenter_not_restored :
  let w := CtxFixtures.capturing in
  OutputContext.capture_print (OutputContext.inst w 1) = true /\
  OutputContext.builtins_print w = OutputContext.original_print /\
  OutputContext.builtins_print
    (OutputContext.with_ CtxFixtures.demo_format 1
       (CtxFixtures.body_reenter 1) w).1
  = OutputContext.bound_print 1 /\
  OutputContext.builtins_print
    (OutputContext.with_ CtxFixtures.demo_format 1
       (CtxFixtures.body_reenter 1) w).1
  <> OutputContext.builtins_print w.
Proof.
  vm_compute. repeat split; discriminate.
Qed.

(** Clearing the flag inside the scope has the same effect. *)
Example scope_disable_not_restored :
  OutputContext.builtins_print
    (OutputContext.with_ CtxFixtures.demo_format 1
       (CtxFixtures.body_disable 1) CtxFixtures.capturing).1
  = OutputContext.bound_print 1.
Proof. vm_compute. reflexivity. Qed.

(** The example of the spec: [print("a", "b")] inside the scope lands
    in the instance's outputs, and afterwards the process-wide print is
    the one from before. *)
Example scope_print_captured :
  let w := (OutputContext.with_ CtxFixtures.demo_format 1
              (OutputContext.call_print
                 [OutputContext.PStr "a"; OutputContext.PStr "b"] ∅)
              CtxFixtures.capturing).1 in
  OutputContext.outputs (OutputContext.inst w 1) =
    [(OutputContext.stdout, "a b" +:+ OutputContext.newline)] /\
  OutputContext.builtins_print w = OutputContext.original_print /\
  OutputContext.sys_stdout w = [].
Proof. vm_compute. now repeat split. Qed.

(** ** Notebook pruner *)

Section PrunerFacts.
Import Pruner.

Implicit Types (d v x : json) (es entries : list (string * json))
  (vs : list json) (k key : string).

(** *** Mappings as entry lists *)

Lemma dict_get_pop_ne key k es :
  k <> key -> dict_get k (dict_pop key es) = dict_get k es.
Proof.
  intros Hne. unfold dict_pop.
  induction es as [|[k0 v0] es IH]; [reflexivity|].
  rewrite filter_cons. cbn [dict_get fst].
  destruct (decide (k0 ≠ key)) as [Hk|Hk]; cbn [dict_get].
  - now rewrite IH.
  - apply dec_stable in Hk. subst k0.
    destruct (String.eqb_spec key k); [congruence|exact IH].
Qed.

Lemma dict_get_pop_eq key es : dict_get key (dict_pop key es) = None.
Proof.
  unfold dict_pop. induction es as [|[k0 v0] es IH]; [reflexivity|].
  rewrite filter_cons. cbn [fst].
  destruct (decide (k0 ≠ key)) as [Hk|Hk]; [|exact IH].
  cbn [dict_get]. destruct (String.eqb_spec k0 key); [contradiction|exact IH].
Qed.

Lemma has_key_pop key es : has_key key (dict_pop key es) = false.
Proof. unfold has_key. now rewrite dict_get_pop_eq. Qed.

Lemma dict_get_pruned_items (g : json -> json) k es :
  dict_get k (pruned_items g es) = pruned_item g k <$> dict_get k es.
Proof.
  induction es as [|[k0 v0] es IH]; [reflexivity|].
  cbn [pruned_items dict_get].
  destruct (String.eqb_spec k0 k) as [->|Hne]; [reflexivity|exact IH].
Qed.

Lemma dict_get_pruned_data (g : json -> json) es :
  dict_get "data" (pruned_data g es) =
  (fun x => if truthy x then g x else x) <$> dict_get "data" es.
Proof.
  induction es as [|[k0 v0] es IH]; [reflexivity|].
  cbn [pruned_data dict_get].
  destruct (String.eqb_spec k0 "data") as [->|Hne]; cbn [dict_get].
  - reflexivity.
  - destruct (String.eqb_spec k0 "data"); [contradiction|exact IH].
Qed.

(** *** Size of subdocuments *)

Lemma size_in_list v vs : In v vs -> (size v < size (JList vs))%nat.
Proof.
  cbn [size]. induction vs as [|v0 vs IH]; [contradiction|].
  intros [->|Hin]; simpl in *; [lia|].
  specialize (IH Hin). lia.
Qed.

Lemma size_in_dict k v es : In (k, v) es -> (size v < size (JDict es))%nat.
Proof.
  cbn [size]. induction es as [|[k0 v0] es IH]; [contradiction|].
  intros [Heq|Hin]; simpl in *.
  - injection Heq as -> ->. lia.
  - specialize (IH Hin). lia.
Qed.

(** Induction on the number of nodes. *)
Lemma size_induction (P : json -> Prop) :
  (forall d, (forall x, (size x < size d)%nat -> P x) -> P d) ->
  forall d, P d.
Proof.
  intros step d.
  assert (H : forall n x, (size x < n)%nat -> P x).
  { induction n as [|n IH]; intros x Hx; [lia|].
    apply step. intros y Hy. apply IH. lia. }
  apply (H (S (size d))). lia.
Qed.

(** *** Substrings *)

Lemma append_cons (c : ascii) (a b : string) :
  String c a +:+ b = String c (a +:+ b).
Proof. reflexivity. Qed.

Lemma append_nil (b : string) : "" +:+ b = b.
Proof. reflexivity. Qed.

Lemma prefix_app (n s : string) :
  String.prefix n s = true <-> exists b, s = n +:+ b.
Proof.
  revert s. induction n as [|c n IH]; intros s.
  - split; [intros _; now exists s|now destruct s].
  - destruct s as [|c' s]; cbn [String.prefix].
    + split; [discriminate|intros [b Hb]; discriminate].
    + destruct (Ascii.ascii_dec c c') as [->|Hne].
      * rewrite IH.
        split; intros [b Hb]; exists b; rewrite append_cons in *; congruence.
      * split; [discriminate|].
        intros [b Hb]. rewrite append_cons in Hb. congruence.
Qed.

(** [is_substring needle s] says that [needle] occurs in [s]. *)
Lemma is_substring_spec (needle s : string) :
  is_substring needle s = true <-> exists a b, s = a +:+ needle +:+ b.
Proof.
  induction s as [|c s IH]; cbn [is_substring].
  - rewrite orb_false_r, prefix_app. split.
    + intros [b Hb]. now exists "", b.
    + intros ([|? a] & b & Hb); [now exists b|discriminate].
  - rewrite orb_true_iff, prefix_app, IH. split.
    + intros [[b Hb]|(a & b & Hab)].
      * now exists "", b.
      * exists (String c a), b. rewrite append_cons. now rewrite Hab.
    + intros ([|c' a] & b & Hab).
      * left. now exists b.
      * right. exists a, b. rewrite append_cons in Hab. congruence.
Qed.

(** *** The snapshot test *)

Lemma has_snapshot_text es :
  sibling_ok es = true -> has_snapshot es = Ok (snapshot_marked es).
Proof.
  unfold sibling_ok, has_snapshot, snapshot_marked.
  destruct (dict_get "text/html" es) as [x|]; [|reflexivity].
  cbn [default]. destruct x as [| | |s|items|]; try discriminate.
  - now destruct s.
  - destruct items as [|[| | |s| |] items]; try discriminate; reflexivity.
Qed.

(** *** What a call leaves behind, exception or not *)

Lemma touched_items_refl es : touched_items es es.
Proof. induction es as [|[k v] es IH]; now constructor. Qed.

Lemma touched_refl d : touched d d.
Proof. apply touched_not_dict. Qed.

Lemma Forall2_refl_on {A} (R : A -> A -> Prop) (l : list A) :
  (forall a, R a a) -> Forall2 R l l.
Proof. intros HR. induction l; now constructor. Qed.

Lemma each_touched (R : json -> json -> Prop) (f : json -> effect json) vs :
  (forall v, R v v) ->
  (forall v, In v vs -> R v (f v).1) ->
  Forall2 R vs (each f vs).1.
Proof.
  intros HR. induction vs as [|v vs IH]; intros Hf; [constructor|].
  cbn [each].
  pose proof (Hf v (or_introl eq_refl)) as Hv.
  destruct (f v) as [v' [e|]]; cbn [fst] in *.
  - constructor; [exact Hv|now apply Forall2_refl_on].
  - assert (Hrest : Forall2 R vs (each f vs).1)
      by (apply IH; intros; apply Hf; now right).
    destruct (each f vs) as [rest' e']. now constructor.
Qed.

Lemma touched_data_refl es : touched_data es es.
Proof.
  induction es as [|[k v] es IH]; [constructor|].
  destruct (String.eqb_spec k "data") as [->|Hne].
  - constructor. apply touched_refl.
  - now constructor.
Qed.

Lemma visit_data_touched (rec : json -> effect json) es :
  (forall k x, In (k, x) es -> touched x (rec x).1) ->
  touched_data es (visit_data rec es).1.
Proof.
  induction es as [|[k x] es IH]; intros Hrec; [constructor|].
  cbn [visit_data].
  destruct (String.eqb_spec k "data") as [->|Hne].
  - destruct (truthy x); [|apply touched_data_refl].
    pose proof (Hrec "data" x (or_introl eq_refl)) as Hx.
    destruct (rec x) as [x' e]. now constructor.
  - assert (Hrest : touched_data es (visit_data rec es).1)
      by (apply IH; intros k' x' Hin; apply (Hrec k'); now right).
    destruct (visit_data rec es) as [rest' e]. now constructor.
Qed.

Lemma visit_output_touched (rec : json -> effect json) v :
  (forall es, v = JDict es ->
              forall k x, In (k, x) es -> touched x (rec x).1) ->
  touched_output v (visit_output rec v).1.
Proof.
  intros Hrec. destruct v as [| | | | |es]; try apply touched_output_same.
  cbn [visit_output].
  pose proof (visit_data_touched rec es (Hrec es eq_refl)) as Hd.
  destruct (visit_data rec es) as [es' e]. now constructor.
Qed.

(** One step of the loop, on the entry and on the entries after it. *)
Lemma visit_item_touched (rec : json -> effect json)
    (d : list (string * json)) key val es es' :
  (forall vs, val = JList vs ->
              forall x, In x vs -> touched x (rec x).1) ->
  (forall vs, val = JList vs ->
              forall out k x, In (JDict out) vs -> In (k, x) out ->
                              touched x (rec x).1) ->
  touched_items es es' ->
  touched_items ((key, val) :: es)
                ((key, (visit_item rec d key val).1.1) :: es').
Proof.
  intros Hcells Houts Hes. unfold visit_item.
  destruct (String.eqb_spec key "cells") as [->|Hnc].
  { destruct val as [| | | |vs|]; try now constructor.
    pose proof (each_touched touched rec vs touched_refl (Hcells vs eq_refl))
      as Hvs.
    destruct (each rec vs) as [vs' e]. now constructor. }
  destruct (String.eqb_spec key "outputs") as [->|Hno].
  { destruct val as [| | | |vs|]; try now constructor.
    assert (Hvs : Forall2 touched_output vs (each (visit_output rec) vs).1).
    { apply each_touched; [apply touched_output_same|].
      intros v Hv. apply visit_output_touched.
      intros out -> k x Hin. now apply (Houts vs eq_refl out k). }
    destruct (each (visit_output rec) vs) as [vs' e]. now constructor. }
  destruct (String.eqb key WIDGET); [destruct (has_snapshot d)|];
    now constructor.
Qed.

Lemma visit_items_touched (rec : json -> effect json)
    (d : list (string * json)) es :
  (forall k vs x, In (k, JList vs) es -> In x vs -> touched x (rec x).1) ->
  (forall k vs out k' x, In (k, JList vs) es -> In (JDict out) vs ->
                         In (k', x) out -> touched x (rec x).1) ->
  touched_items es (visit_items rec d es).1.1.
Proof.
  induction es as [|[key val] es IH]; intros Hcells Houts; [constructor|].
  cbn [visit_items].
  assert (Hstep : forall es',
    touched_items es es' ->
    touched_items ((key, val) :: es)
                  ((key, (visit_item rec d key val).1.1) :: es')).
  { intros es'. apply visit_item_touched.
    - intros vs -> x Hin. apply (Hcells key vs); [now left|exact Hin].
    - intros vs -> out k x Hout Hin.
      apply (Houts key vs out k); [now left|exact Hout|exact Hin]. }
  destruct (visit_item rec d key val) as [[val' mark] [e|]]; cbn [fst] in *.
  - apply Hstep, touched_items_refl.
  - assert (Hrest : touched_items es (visit_items rec d es).1.1).
    { apply IH.
      - intros k vs x Hin. apply (Hcells k vs). now right.
      - intros k vs out k' x Hin. apply (Houts k vs out k'). now right. }
    destruct (visit_items rec d es) as [[rest' mark'] e'].
    now apply Hstep.
Qed.

Lemma touched_items_pop es es' :
  touched_items es es' -> touched_items es (dict_pop WIDGET es').
Proof.
  unfold dict_pop.
  induction 1 as [|k v es es' _ IH|v es es' _ IH
                  |vs vs' es es' Hvs _ IH|vs vs' es es' Hvs _ IH].
  - constructor.
  - rewrite filter_cons. cbn [fst].
    destruct (decide (k ≠ WIDGET)) as [Hk|Hk].
    + now constructor.
    + apply dec_stable in Hk. subst k. now apply touched_drop.
  - now apply touched_drop.
  - rewrite filter_cons. cbn [fst]. rewrite decide_True by discriminate.
    now constructor.
  - rewrite filter_cons. cbn [fst]. rewrite decide_True by discriminate.
    now constructor.
Qed.

(** Whatever the document, the call only drops widget entries from
    mappings it visits. *)
Lemma remove_touched d : touched d (remove_rfb_models_from_nb d).1.
Proof.
  induction d as [d IH] using size_induction.
  destruct d as [| | | | |es]; try apply touched_not_dict.
  cbn [remove_rfb_models_from_nb].
  assert (Hes : touched_items es
                  (visit_items remove_rfb_models_from_nb es es).1.1).
  { apply visit_items_touched.
    - intros k vs x Hin Hx. apply IH.
      etransitivity; [apply (size_in_list _ _ Hx)|].
      apply (size_in_dict _ _ _ Hin).
    - intros k vs out k' x Hin Hout Hx. apply IH.
      etransitivity; [apply (size_in_dict _ _ _ Hx)|].
      etransitivity; [apply (size_in_list _ _ Hout)|].
      apply (size_in_dict _ _ _ Hin). }
  destruct (visit_items remove_rfb_models_from_nb es es)
    as [[es' mark] [e|]]; cbn [fst] in *.
  - now constructor.
  - constructor. destruct mark; [now apply touched_items_pop|exact Hes].
Qed.

(** *** On a well-shaped document the call ends normally *)

Lemma each_pure (f : json -> effect json) (g : json -> json) vs :
  (forall v, In v vs -> f v = (g v, None)) ->
  each f vs = (map g vs, None).
Proof.
  induction vs as [|v vs IH]; intros Hf; [reflexivity|].
  cbn [each map]. rewrite (Hf v) by now left.
  rewrite IH; [reflexivity|]. intros; apply Hf; now right.
Qed.

Section Refinement.
Variables (rec : json -> effect json) (g : json -> json) (ok : json -> bool).

Lemma visit_data_pure es :
  data_ok ok es = true ->
  (forall k x, In (k, x) es -> ok x = true -> rec x = (g x, None)) ->
  visit_data rec es = (pruned_data g es, None).
Proof.
  induction es as [|[k x] es IH]; intros Hok Hrec; [reflexivity|].
  cbn [data_ok visit_data pruned_data] in *.
  destruct (String.eqb k "data").
  - destruct (truthy x); [|reflexivity].
    now rewrite (Hrec k x (or_introl eq_refl) Hok).
  - rewrite IH; [reflexivity|exact Hok|].
    intros k' x' Hin. apply (Hrec k'). now right.
Qed.

Lemma visit_output_pure v :
  output_ok ok v = true ->
  (forall es, v = JDict es ->
     forall k x, In (k, x) es -> ok x = true -> rec x = (g x, None)) ->
  visit_output rec v = (pruned_output g v, None).
Proof.
  destruct v as [| | | | |es]; try discriminate.
  intros Hok Hrec. cbn [visit_output pruned_output].
  now rewrite (visit_data_pure es Hok (Hrec es eq_refl)).
Qed.

Lemma visit_item_pure (d : list (string * json)) key val :
  item_ok ok d key val = true ->
  (forall vs, val = JList vs ->
     forall x, In x vs -> ok x = true -> rec x = (g x, None)) ->
  (forall vs, val = JList vs ->
     forall out k x, In (JDict out) vs -> In (k, x) out ->
                     ok x = true -> rec x = (g x, None)) ->
  visit_item rec d key val =
  (pruned_item g key val, String.eqb key WIDGET && snapshot_marked d, None).
Proof.
  unfold item_ok, visit_item, pruned_item. intros Hok Hcells Houts.
  destruct (String.eqb_spec key "cells") as [->|Hnc].
  { destruct val as [| | | |vs|]; try reflexivity.
    rewrite (each_pure rec g vs); [reflexivity|].
    intros v Hv. apply (Hcells vs eq_refl v Hv).
    rewrite forallb_forall in Hok. now apply Hok. }
  destruct (String.eqb_spec key "outputs") as [->|Hno].
  { destruct val as [| | | |vs|]; try reflexivity.
    rewrite (each_pure (visit_output rec) (pruned_output g) vs);
      [reflexivity|].
    intros v Hv. rewrite forallb_forall in Hok.
    apply visit_output_pure; [now apply Hok|].
    intros out -> k x. now apply (Houts vs eq_refl out k x). }
  destruct (String.eqb key WIDGET); [|reflexivity].
  now rewrite (has_snapshot_text d Hok).
Qed.

Lemma visit_items_pure (d : list (string * json)) es :
  items_ok ok d es = true ->
  (forall k vs x, In (k, JList vs) es -> In x vs -> ok x = true ->
                  rec x = (g x, None)) ->
  (forall k vs out k' x, In (k, JList vs) es -> In (JDict out) vs ->
                         In (k', x) out -> ok x = true ->
                         rec x = (g x, None)) ->
  visit_items rec d es =
  (pruned_items g es,
   existsb (fun kv => String.eqb kv.1 WIDGET) es && snapshot_marked d,
   None).
Proof.
  induction es as [|[key val] es IH]; intros Hok Hcells Houts;
    [reflexivity|].
  cbn [items_ok] in Hok. apply andb_prop in Hok as [Hitem Hrest].
  cbn [visit_items pruned_items existsb fst].
  rewrite (visit_item_pure d key val Hitem).
  - rewrite IH; [|exact Hrest| |].
    + now rewrite andb_orb_distrib_l.
    + intros k vs x Hin. apply (Hcells k vs). now right.
    + intros k vs out k' x Hin. apply (Houts k vs out k'). now right.
  - intros vs -> x. apply (Hcells key vs). now left.
  - intros vs -> out k x. apply (Houts key vs out k). now left.
Qed.
End Refinement.

Lemma has_key_existsb key es :
  has_key key es = existsb (fun kv => String.eqb kv.1 key) es.
Proof.
  unfold has_key. induction es as [|[k v] es IH]; [reflexivity|].
  cbn [dict_get existsb fst]. now destruct (String.eqb k key).
Qed.

(** On a well-shaped document the call raises nothing and leaves
    exactly the document [pruned] describes. *)
Lemma remove_well_shaped d :
  well_shaped d = true ->
  remove_rfb_models_from_nb d = (pruned d, None).
Proof.
  induction d as [d IH] using size_induction.
  destruct d as [| | | | |es]; try discriminate.
  intros Hok. cbn [well_shaped] in Hok.
  cbn [remove_rfb_models_from_nb pruned].
  rewrite (visit_items_pure remove_rfb_models_from_nb pruned well_shaped
             es es Hok).
  - now rewrite has_key_existsb.
  - intros k vs x Hin Hx. apply IH.
    etransitivity; [apply (size_in_list _ _ Hx)|].
    apply (size_in_dict _ _ _ Hin).
  - intros k vs out k' x Hin Hout Hx. apply IH.
    etransitivity; [apply (size_in_dict _ _ _ Hx)|].
    etransitivity; [apply (size_in_list _ _ Hout)|].
    apply (size_in_dict _ _ _ Hin).
Qed.

(** *** Following one "data" mapping through the call *)

Lemma lookup_map {A B} (f : A -> B) (l : list A) (i : nat) :
  map f l !! i = f <$> l !! i.
Proof.
  revert i. induction l as [|a l IH]; intros [|i]; try reflexivity.
  apply IH.
Qed.

Lemma pruned_dict es : pruned (JDict es) = JDict (pruned_entries es).
Proof. reflexivity. Qed.

Lemma dict_get_pruned_entries k es :
  k <> WIDGET ->
  dict_get k (pruned_entries es) = pruned_item pruned k <$> dict_get k es.
Proof.
  intros Hk. unfold pruned_entries.
  destruct (has_key WIDGET es && snapshot_marked es).
  - rewrite dict_get_pop_ne by exact Hk. apply dict_get_pruned_items.
  - apply dict_get_pruned_items.
Qed.

Lemma has_key_pruned_entries es :
  has_key WIDGET (pruned_entries es) =
  has_key WIDGET es && negb (snapshot_marked es).
Proof.
  unfold pruned_entries.
  assert (Hsame : has_key WIDGET (pruned_items pruned es) = has_key WIDGET es).
  { unfold has_key. rewrite dict_get_pruned_items.
    now destruct (dict_get WIDGET es). }
  destruct (has_key WIDGET es) eqn:Hw, (snapshot_marked es); cbn [andb negb].
  - apply has_key_pop.
  - now rewrite Hsame.
  - now rewrite Hsame.
  - now rewrite Hsame.
Qed.

Lemma html_pruned_entries es :
  dict_get "text/html" (pruned_entries es) = dict_get "text/html" es.
Proof.
  rewrite dict_get_pruned_entries by discriminate.
  now destruct (dict_get "text/html" es).
Qed.

Lemma data_at_pruned d i j data :
  data_at d i j = Some data ->
  data_at (pruned d) i j = Some (pruned_entries data).
Proof.
  destruct d as [| | | | |top]; try discriminate.
  rewrite pruned_dict. cbn [data_at].
  rewrite dict_get_pruned_entries by discriminate.
  destruct (dict_get "cells" top) as [[| | | |cells|]|]; try discriminate.
  cbn [fmap option_fmap option_map].
  change (pruned_item pruned "cells" (JList cells))
    with (JList (map pruned cells)).
  cbv beta iota. rewrite lookup_map.
  destruct (cells !! i) as [[| | | | |cell]|]; try discriminate.
  cbn [fmap option_fmap option_map]. rewrite pruned_dict. cbv beta iota.
  rewrite dict_get_pruned_entries by discriminate.
  destruct (dict_get "outputs" cell) as [[| | | |outs|]|]; try discriminate.
  cbn [fmap option_fmap option_map].
  change (pruned_item pruned "outputs" (JList outs))
    with (JList (map (pruned_output pruned) outs)).
  cbv beta iota. rewrite lookup_map.
  destruct (outs !! j) as [[| | | | |out]|]; try discriminate.
  cbn [fmap option_fmap option_map pruned_output]. cbv beta iota.
  rewrite dict_get_pruned_data.
  destruct (dict_get "data" out) as [[| | | | |data0]|]; try discriminate.
  intros [= ->]. cbn [fmap option_fmap option_map].
  destruct data as [|entry data]; reflexivity.
Qed.

(** C7: in a well-shaped notebook, take the "data" mapping of any
    output of any cell.  The call ends normally; if the mapping had
    the widget key, the key is gone afterwards exactly when the
    mapping's "text/html" entry exists, is non-empty and has the
    marker inside its first element; a mapping without the key gets
    none; and "text/html" is as before. *)
Theorem remove_widget_iff_snapshot d i j data :
  well_shaped d = true ->
  data_at d i j = Some data ->
  (remove_rfb_models_from_nb d).2 = None /\
  exists data',
    data_at (remove_rfb_models_from_nb d).1 i j = Some data' /\
    (has_key WIDGET data = true ->
       (has_key WIDGET data' = false <-> snapshot_marked data = true)) /\
    (has_key WIDGET data = false -> has_key WIDGET data' = false) /\
    dict_get "text/html" data' = dict_get "text/html" data.
Proof.
  intros Hok Hdata. rewrite (remove_well_shaped d Hok). cbn [fst snd].
  split; [reflexivity|].
  exists (pruned_entries data).
  split; [now apply data_at_pruned|].
  rewrite has_key_pruned_entries, html_pruned_entries.
  split; [|split; [|reflexivity]].
  - intros ->. now destruct (snapshot_marked data).
  - now intros ->.
Qed.

(** *** Keys of a visited mapping *)

Lemma touched_items_keys es es' k :
  touched_items es es' -> k <> WIDGET -> has_key k es' = has_key k es.
Proof.
  unfold has_key. intros Ht Hk.
  induction Ht as [|k0 v es es' _ IH|v es es' _ IH
                   |vs vs' es es' Hvs _ IH|vs vs' es es' Hvs _ IH];
    cbn [dict_get]; try reflexivity.
  - destruct (String.eqb k0 k); [reflexivity|exact IH].
  - destruct (String.eqb_spec WIDGET k); [congruence|exact IH].
  - destruct (String.eqb "cells" k); [reflexivity|exact IH].
  - destruct (String.eqb "outputs" k); [reflexivity|exact IH].
Qed.

Lemma items_ok_no_keys (ok : json -> bool) (d : list (string * json)) es :
  has_key "cells" es = false -> has_key "outputs" es = false ->
  has_key WIDGET es = false ->
  items_ok ok d es = true /\ forall g, pruned_items g es = es.
Proof.
  unfold has_key.
  induction es as [|[k v] es IH]; [now split|].
  cbn [dict_get items_ok pruned_items]. unfold item_ok, pruned_item.
  destruct (String.eqb k "cells"); [discriminate|].
  destruct (String.eqb k "outputs"); [discriminate|].
  destruct (String.eqb k WIDGET); [discriminate|].
  intros H1 H2 H3. destruct (IH H1 H2 H3) as [Hok Hsame].
  split; [exact Hok|]. intros g. now rewrite Hsame.
Qed.

(** Values of a visited mapping: what is not the widget entry and
    not a list under "cells" or "outputs" is the same object as
    before. *)
Lemma touched_items_values es es' k :
  touched_items es es' -> k <> WIDGET ->
  (forall vs, dict_get k es = Some (JList vs) ->
              k <> "cells" /\ k <> "outputs") ->
  dict_get k es' = dict_get k es.
Proof.
  intros Ht Hk.
  induction Ht as [|k0 v es es' _ IH|v es es' _ IH
                   |vs vs' es es' Hvs _ IH|vs vs' es es' Hvs _ IH];
    cbn [dict_get]; intros Hl.
  - reflexivity.
  - destruct (String.eqb k0 k); [reflexivity|exact (IH Hl)].
  - destruct (String.eqb_spec WIDGET k) as [Heq|_]; [congruence|].
    exact (IH Hl).
  - destruct (String.eqb_spec "cells" k) as [<-|_].
    + now destruct (Hl vs eq_refl).
    + exact (IH Hl).
  - destruct (String.eqb_spec "outputs" k) as [<-|_].
    + now destruct (Hl vs eq_refl).
    + exact (IH Hl).
Qed.

(** *** The widget key of the mapping passed in *)

Lemma visit_items_has_key (rec : json -> effect json)
    (d : list (string * json)) es k :
  has_key k (visit_items rec d es).1.1 = has_key k es.
Proof.
  unfold has_key.
  induction es as [|[key val] es IH]; [reflexivity|].
  cbn [visit_items].
  destruct (visit_item rec d key val) as [[val' mark] [e|]].
  - cbn [fst dict_get]. now destruct (String.eqb key k).
  - destruct (visit_items rec d es) as [[rest' mark'] e'].
    cbn [fst dict_get] in *. now destruct (String.eqb key k).
Qed.

Lemma visit_item_mark (rec : json -> effect json)
    (d : list (string * json)) key val :
  (visit_item rec d key val).1.2 = true -> has_snapshot d = Ok true.
Proof.
  unfold visit_item.
  destruct (String.eqb key "cells").
  { destruct val as [| | | |vs|]; try discriminate.
    now destruct (each rec vs). }
  destruct (String.eqb key "outputs").
  { destruct val as [| | | |vs|]; try discriminate.
    now destruct (each (visit_output rec) vs). }
  destruct (String.eqb key WIDGET); [|discriminate].
  destruct (has_snapshot d) as [[|]|]; cbn [fst snd]; congruence.
Qed.

(** The key is put into [to_remove] only after a successful test of
    lines 161-162. *)
Lemma visit_items_mark (rec : json -> effect json)
    (d : list (string * json)) es :
  (visit_items rec d es).1.2 = true -> has_snapshot d = Ok true.
Proof.
  induction es as [|[key val] es IH]; [discriminate|].
  cbn [visit_items].
  pose proof (visit_item_mark rec d key val) as Hv.
  destruct (visit_item rec d key val) as [[val' mark] [e|]];
    cbn [fst snd] in *; [exact Hv|].
  destruct (visit_items rec d es) as [[rest' mark'] e'].
  cbn [fst snd] in *. intros [H|H]%orb_true_iff; auto.
Qed.

(** A loop that ends without an exception has looked at every key,
    the widget key included. *)
Lemma visit_items_marks (rec : json -> effect json)
    (d : list (string * json)) es :
  (visit_items rec d es).2 = None ->
  has_key WIDGET es = true -> has_snapshot d = Ok true ->
  (visit_items rec d es).1.2 = true.
Proof.
  unfold has_key. intros Hnone Hw Hd.
  induction es as [|[key val] es IH]; [discriminate|].
  revert Hnone Hw. cbn [visit_items dict_get].
  assert (Hv : String.eqb key WIDGET = true ->
               visit_item rec d key val = (val, true, None)).
  { intros ->%String.eqb_eq. unfold visit_item.
    change (String.eqb WIDGET "cells") with false.
    change (String.eqb WIDGET "outputs") with false.
    rewrite String.eqb_refl, Hd. reflexivity. }
  destruct (String.eqb key WIDGET).
  - rewrite (Hv eq_refl).
    destruct (visit_items rec d es) as [[rest' mark'] e']. reflexivity.
  - destruct (visit_item rec d key val) as [[val' mark] [e|]];
      [discriminate|].
    destruct (visit_items rec d es) as [[rest' mark'] e'].
    cbn [fst snd] in *. intros He Hw. rewrite (IH He Hw).
    apply orb_true_r.
Qed.

(** C8 (as amended): whatever the document, and also when the call
    ends in an exception, the only change is that widget entries have
    been dropped from visited mappings (the document, the elements of
    its "cells" lists and the "data" of the elements of its "outputs"
    lists): no other key of a mapping is removed or added, no order
    changes and no node is new.  In the document itself every value
    that is neither under the widget key nor a list under "cells" or
    "outputs" is as before, and the document's own widget key goes
    exactly when the test of lines 161-162 on the document succeeds
    and the call raises nothing.  A mapping with none of the keys
    "cells", "outputs" and the widget key is left as it is, without
    error.  On a well-shaped document no exception is raised. *)
Theorem remove_frame d :
  touched d (remove_rfb_models_from_nb d).1 /\
  (forall es es' k,
      d = JDict es -> (remove_rfb_models_from_nb d).1 = JDict es' ->
      k <> WIDGET -> has_key k es' = has_key k es) /\
  (forall es,
      d = JDict es -> has_key "cells" es = false ->
      has_key "outputs" es = false -> has_key WIDGET es = false ->
      remove_rfb_models_from_nb d = (d, None)) /\
  (well_shaped d = true -> (remove_rfb_models_from_nb d).2 = None) /\
  (forall es es' k,
      d = JDict es -> (remove_rfb_models_from_nb d).1 = JDict es' ->
      k <> WIDGET ->
      (forall vs, dict_get k es = Some (JList vs) ->
                  k <> "cells" /\ k <> "outputs") ->
      dict_get k es' = dict_get k es) /\
  (forall es es',
      d = JDict es -> (remove_rfb_models_from_nb d).1 = JDict es' ->
      has_key WIDGET es = true ->
      (has_key WIDGET es' = false <->
       has_snapshot es = Ok true /\ (remove_rfb_models_from_nb d).2 = None)).
Proof.
  pose proof (remove_touched d) as Ht.
  split; [exact Ht|]. split; [|split; [|split; [|split]]].
  - intros es es' k -> Hres Hk. rewrite Hres in Ht.
    inversion Ht as [es0 es0' Hitems|]; subst.
    + now apply touched_items_keys.
    + reflexivity.
  - intros es -> Hc Ho Hw.
    destruct (items_ok_no_keys well_shaped es es Hc Ho Hw) as [Hok Hsame].
    rewrite (remove_well_shaped (JDict es) Hok).
    cbn [pruned]. now rewrite Hw, Hsame.
  - intros Hok. now rewrite (remove_well_shaped d Hok).
  - intros es es' k -> Hres Hk Hl. rewrite Hres in Ht.
    inversion Ht as [es0 es0' Hitems|]; subst.
    + now apply touched_items_values.
    + reflexivity.
  - intros es es' -> Hres Hw. revert Hres.
    cbn [remove_rfb_models_from_nb].
    pose proof (visit_items_has_key remove_rfb_models_from_nb es es WIDGET)
      as Hk.
    pose proof (visit_items_mark remove_rfb_models_from_nb es es) as Hm.
    pose proof (visit_items_marks remove_rfb_models_from_nb es es) as Hms.
    destruct (visit_items remove_rfb_models_from_nb es es)
      as [[entries' mark] [e|]]; cbn [fst snd] in *.
    + intros [= <-]. rewrite Hk, Hw. split; [discriminate|].
      intros [_ [=]].
    + intros [= <-]. destruct mark.
      * rewrite has_key_pop. split; [|reflexivity].
        intros _. split; [now apply Hm|reflexivity].
      * rewrite Hk, Hw. split; [discriminate|].
        intros [Hs _]. discriminate (Hms eq_refl Hw Hs).
Qed.

End PrunerFacts.

Lemma remove_widget_iff_snapshot_witness :
  (Pruner.remove_rfb_models_from_nb NbFixtures.notebook).2 = None /\
  exists data',
    Pruner.data_at (Pruner.remove_rfb_models_from_nb NbFixtures.notebook).1
      0 0 = Some data' /\
    Pruner.has_key Pruner.WIDGET data' = false.
Proof.
  destruct (remove_widget_iff_snapshot NbFixtures.notebook 0 0
              [(Pruner.WIDGET, Pruner.JDict [("model_id", Pruner.JStr "abc")]);
               ("text/html", NbFixtures.snapshot_html)]
              eq_refl eq_refl)
    as (Hnone & data' & Hat & Hiff & _ & _).
  split; [exact Hnone|]. exists data'. split; [exact Hat|].
  apply Hiff; reflexivity.
Defined.

Lemma remove_frame_witness :
  (Pruner.remove_rfb_models_from_nb NbFixtures.notebook).2 = None.
Proof.
  apply (proj1 (proj2 (proj2 (proj2 (remove_frame NbFixtures.notebook))))).
  reflexivity.
Defined.

(** C8 (as stated) fails: a "cells" list holding a number makes the
    call raise AttributeError. *)
Lemma remove_raises_on_number_cell :
  Pruner.remove_rfb_models_from_nb NbFixtures.cells_of_numbers =
  (NbFixtures.cells_of_numbers, Some AttributeError).
Proof. reflexivity. Qed.

(** The mapping passed in is a visited mapping like any other: a
    document that itself holds the widget key next to a snapshot loses
    that key, while its other entries stay. *)
Example remove_pops_document_widget_key :
  Pruner.remove_rfb_models_from_nb NbFixtures.marked_document =
  (Pruner.JDict [("text/html", NbFixtures.snapshot_html);
                 ("metadata", Pruner.JDict []);
                 ("nbformat", Pruner.JNum 4)], None).
Proof. vm_compute. reflexivity. Qed.

(** The example of the spec: the snapshot output loses its widget
    entry, its sibling keeps both entries. *)
Example remove_example :
  Pruner.remove_rfb_models_from_nb NbFixtures.notebook =
  (NbFixtures.notebook_pruned, None).
Proof. vm_compute. reflexivity. Qed.

(** A number where the HTML text should be makes the subscript fail. *)
Example remove_raises_on_number_html :
  Pruner.remove_rfb_models_from_nb NbFixtures.html_is_number =
  (NbFixtures.html_is_number, Some TypeError).
Proof. reflexivity. Qed.

(** ** Snapshot rendering *)

Section StringFacts.
Import SnapshotHtml.

Implicit Types (a b s t : string) (c : ascii).

Lemma append_assoc a b s : (a +:+ b) +:+ s = a +:+ (b +:+ s).
Proof.
  induction a as [|c a IH]; [reflexivity|].
  rewrite !append_cons. now rewrite IH.
Qed.

Lemma append_empty_r a : a +:+ "" = a.
Proof.
  induction a as [|c a IH]; [reflexivity|].
  rewrite append_cons. now rewrite IH.
Qed.

(** Induction on the length of a string. *)
Lemma string_length_ind (P : string -> Prop) :
  (forall s,
      (forall t, (String.length t < String.length s)%nat -> P t) -> P s) ->
  forall s, P s.
Proof.
  intros step s.
  assert (H : forall n t, (String.length t < n)%nat -> P t).
  { induction n as [|n IH]; intros t Ht; [lia|].
    apply step. intros u Hu. apply IH. lia. }
  apply (H (S (String.length s))). lia.
Qed.

(** *** Characters *)

Lemma all_chars_app (p : ascii -> bool) a b :
  all_chars p (a +:+ b) = all_chars p a && all_chars p b.
Proof.
  induction a as [|c a IH]; [reflexivity|].
  rewrite append_cons. cbn [all_chars]. now rewrite IH, andb_assoc.
Qed.

Lemma all_chars_impl (p q : ascii -> bool) s :
  (forall c, p c = true -> q c = true) ->
  all_chars p s = true -> all_chars q s = true.
Proof.
  intros Hpq. induction s as [|c s IH]; [reflexivity|].
  cbn [all_chars]. rewrite !andb_true_iff. intros [Hc Hs]. auto.
Qed.

Lemma has_char_all_chars c s :
  has_char c s = negb (all_chars (fun c' => negb (Ascii.eqb c' c)) s).
Proof.
  induction s as [|c' s IH]; [reflexivity|].
  cbn [has_char all_chars]. rewrite IH.
  now destruct (Ascii.eqb c' c), (all_chars _ s).
Qed.

Lemma has_char_app c a b : has_char c (a +:+ b) = has_char c a || has_char c b.
Proof.
  induction a as [|c' a IH]; [reflexivity|].
  rewrite append_cons. cbn [has_char]. now rewrite IH, orb_assoc.
Qed.

(** *** [replace(newline, "")] *)

Lemma remove_newlines_app a b :
  remove_newlines (a +:+ b) = remove_newlines a +:+ remove_newlines b.
Proof.
  induction a as [|c a IH]; [reflexivity|].
  rewrite append_cons. cbn [remove_newlines].
  destruct (Ascii.eqb c newline); [exact IH|].
  rewrite append_cons. now rewrite IH.
Qed.

Lemma remove_newlines_none s : has_char newline (remove_newlines s) = false.
Proof.
  induction s as [|c s IH]; [reflexivity|].
  cbn [remove_newlines]. destruct (Ascii.eqb c newline) eqn:Hc; [exact IH|].
  cbn [has_char]. now rewrite Hc, IH.
Qed.

Lemma remove_newlines_id s :
  has_char newline s = false -> remove_newlines s = s.
Proof.
  induction s as [|c s IH]; [reflexivity|].
  cbn [has_char remove_newlines]. intros H.
  apply orb_false_elim in H as [-> Hs]. now rewrite IH.
Qed.

Lemma remove_newlines_all_chars (p : ascii -> bool) s :
  all_chars (fun c => p c || Ascii.eqb c newline) s = true ->
  all_chars p (remove_newlines s) = true.
Proof.
  induction s as [|c s IH]; [reflexivity|].
  cbn [all_chars remove_newlines]. rewrite andb_true_iff. intros [Hc Hs].
  destruct (Ascii.eqb c newline).
  - now apply IH.
  - cbn [all_chars]. rewrite orb_false_r in Hc. now rewrite Hc, IH.
Qed.

(** *** [replace("    ", "")] *)

Lemma remove_indent_four c1 c2 c3 c4 s :
  remove_indent (String c1 (String c2 (String c3 (String c4 s)))) =
  if Ascii.eqb c1 space && Ascii.eqb c2 space &&
     Ascii.eqb c3 space && Ascii.eqb c4 space
  then remove_indent s
  else String c1 (remove_indent (String c2 (String c3 (String c4 s)))).
Proof. reflexivity. Qed.

Lemma remove_indent_cons c s :
  Ascii.eqb c space = false ->
  remove_indent (String c s) = String c (remove_indent s).
Proof.
  intros Hc. destruct s as [|c2 [|c3 [|c4 s]]]; try reflexivity.
  now rewrite remove_indent_four, Hc.
Qed.

Lemma remove_indent_cons2 c1 c s :
  Ascii.eqb c space = false ->
  remove_indent (String c1 (String c s)) =
  String c1 (remove_indent (String c s)).
Proof.
  intros Hc. destruct s as [|c3 [|c4 s]]; try reflexivity.
  now rewrite remove_indent_four, Hc, andb_false_r.
Qed.

Lemma remove_indent_cons3 c1 c2 c s :
  Ascii.eqb c space = false ->
  remove_indent (String c1 (String c2 (String c s))) =
  String c1 (remove_indent (String c2 (String c s))).
Proof.
  intros Hc. destruct s as [|c4 s]; try reflexivity.
  now rewrite remove_indent_four, Hc, andb_false_r.
Qed.

Lemma remove_indent_cons4 c1 c2 c3 c s :
  Ascii.eqb c space = false ->
  remove_indent (String c1 (String c2 (String c3 (String c s)))) =
  String c1 (remove_indent (String c2 (String c3 (String c s)))).
Proof. intros Hc. now rewrite remove_indent_four, Hc, andb_false_r. Qed.

(** A character other than a space ends whatever run of spaces comes
    before it, so the text on either side is treated on its own. *)
Lemma remove_indent_split a c b :
  Ascii.eqb c space = false ->
  remove_indent (a +:+ String c b) =
  remove_indent a +:+ String c (remove_indent b).
Proof.
  intros Hc. induction a as [a IH] using string_length_ind.
  destruct a as [|c1 a1].
  { rewrite append_nil. now apply remove_indent_cons. }
  assert (Hstep : remove_indent (a1 +:+ String c b) =
                  remove_indent a1 +:+ String c (remove_indent b))
    by (apply IH; cbn [String.length]; lia).
  destruct a1 as [|c2 [|c3 [|c4 a4]]].
  - rewrite append_cons, append_nil in *.
    now rewrite (remove_indent_cons2 c1 c b Hc), Hstep.
  - rewrite !append_cons, append_nil in *.
    now rewrite (remove_indent_cons3 c1 c2 c b Hc), Hstep.
  - rewrite !append_cons, append_nil in *.
    now rewrite (remove_indent_cons4 c1 c2 c3 c b Hc), Hstep.
  - rewrite !append_cons in *. rewrite !remove_indent_four.
    destruct (Ascii.eqb c1 space && Ascii.eqb c2 space &&
              Ascii.eqb c3 space && Ascii.eqb c4 space).
    + apply IH. cbn [String.length]. lia.
    + rewrite Hstep. now rewrite append_cons.
Qed.

Lemma solid_not_space c :
  negb (is_whitespace c) = true -> Ascii.eqb c space = false.
Proof.
  intros Hc. destruct (Ascii.eqb_spec c space) as [->|]; [|reflexivity].
  discriminate Hc.
Qed.

Lemma starts_solid_app a b :
  starts_solid a = true -> starts_solid (a +:+ b) = true.
Proof. destruct a as [|c a]; [discriminate|]. now rewrite append_cons. Qed.

Lemma ends_solid_app a b :
  ends_solid b = true -> ends_solid (a +:+ b) = true.
Proof.
  intros Hb. induction a as [|c a IH]; [exact Hb|].
  rewrite append_cons. cbn [ends_solid].
  destruct (a +:+ b) eqn:Hab; [discriminate IH|exact IH].
Qed.

Lemma ends_solid_last a :
  ends_solid a = true ->
  exists a' c, a = a' +:+ String c "" /\ negb (is_whitespace c) = true.
Proof.
  induction a as [|c a IH]; [discriminate|].
  cbn [ends_solid]. destruct a as [|c' a].
  - intros Hc. now exists "", c.
  - intros Ha. destruct (IH Ha) as (a' & c0 & Heq & Hc0).
    exists (String c a'), c0. rewrite append_cons, <- Heq. now split.
Qed.

Lemma remove_indent_app_r a b :
  starts_solid b = true ->
  remove_indent (a +:+ b) = remove_indent a +:+ remove_indent b.
Proof.
  destruct b as [|c b]; [discriminate|]. cbn [starts_solid]. intros Hc.
  apply solid_not_space in Hc.
  now rewrite remove_indent_split, remove_indent_cons.
Qed.

Lemma remove_indent_app_l a b :
  ends_solid a = true ->
  remove_indent (a +:+ b) = remove_indent a +:+ remove_indent b.
Proof.
  intros Ha. destruct (ends_solid_last a Ha) as (a' & c & -> & Hc).
  apply solid_not_space in Hc.
  rewrite append_assoc, append_cons, append_nil.
  rewrite !remove_indent_split by exact Hc.
  now rewrite append_assoc, append_cons, append_nil.
Qed.

Lemma remove_indent_id s :
  Pruner.is_substring "    " s = false -> remove_indent s = s.
Proof.
  induction s as [|c1 s IH]; [reflexivity|].
  cbn [Pruner.is_substring]. intros H.
  apply orb_false_elim in H as [Hpre Hs]. specialize (IH Hs).
  destruct s as [|c2 [|c3 [|c4 s]]]; try reflexivity.
  rewrite remove_indent_four, IH.
  destruct (Ascii.eqb_spec c1 space) as [->|]; [|reflexivity].
  destruct (Ascii.eqb_spec c2 space) as [->|]; [|reflexivity].
  destruct (Ascii.eqb_spec c3 space) as [->|]; [|reflexivity].
  destruct (Ascii.eqb_spec c4 space) as [->|]; [|reflexivity].
  now destruct s.
Qed.

Lemma remove_indent_all_chars (p : ascii -> bool) s :
  all_chars p s = true -> all_chars p (remove_indent s) = true.
Proof.
  induction s as [s IH] using string_length_ind. intros Hs.
  destruct s as [|c1 s1]; [reflexivity|].
  assert (H1 : all_chars p (String c1 (remove_indent s1)) = true).
  { cbn [all_chars] in *. apply andb_prop in Hs as [-> Hs].
    apply IH; [cbn [String.length]; lia|exact Hs]. }
  destruct s1 as [|c2 [|c3 [|c4 s4]]]; try exact H1.
  rewrite remove_indent_four.
  destruct (_ && _ && _ && _); [|exact H1].
  apply IH; [cbn [String.length]; lia|].
  cbn [all_chars] in Hs. now repeat (apply andb_prop in Hs as [_ Hs]).
Qed.

(** *** [strip()] *)

Lemma lstrip_solid s : starts_solid s = true -> lstrip s = s.
Proof.
  destruct s as [|c s]; [reflexivity|]. cbn [starts_solid lstrip].
  now destruct (is_whitespace c).
Qed.

Lemma rstrip_solid s : ends_solid s = true -> rstrip s = s.
Proof.
  induction s as [|c s IH]; [reflexivity|].
  cbn [ends_solid rstrip]. destruct s as [|c' s].
  - cbn [rstrip]. now destruct (is_whitespace c).
  - intros Hs. now rewrite (IH Hs).
Qed.

Lemma strip_solid s :
  starts_solid s = true -> ends_solid s = true -> strip s = s.
Proof.
  intros Hl Hr. unfold strip. rewrite (lstrip_solid s Hl).
  now apply rstrip_solid.
Qed.

Lemma lstrip_all_chars (p : ascii -> bool) s :
  all_chars p s = true -> all_chars p (lstrip s) = true.
Proof.
  induction s as [|c s IH]; [reflexivity|].
  cbn [lstrip]. destruct (is_whitespace c); [|trivial].
  cbn [all_chars]. intros H. apply andb_prop in H as [_ H]. now apply IH.
Qed.

Lemma rstrip_all_chars (p : ascii -> bool) s :
  all_chars p s = true -> all_chars p (rstrip s) = true.
Proof.
  induction s as [|c s IH]; [reflexivity|].
  cbn [all_chars rstrip]. intros H. apply andb_prop in H as [Hc Hs].
  specialize (IH Hs). destruct (rstrip s).
  - destruct (is_whitespace c); [reflexivity|].
    cbn [all_chars]. now rewrite Hc.
  - cbn [all_chars] in *. now rewrite Hc.
Qed.

(** Line 136 leaves no newline behind, whatever the text. *)
Lemma collapsed_no_newline s :
  has_char newline (strip (remove_indent (remove_newlines s))) = false.
Proof.
  rewrite has_char_all_chars. apply negb_false_iff.
  apply rstrip_all_chars, lstrip_all_chars, remove_indent_all_chars.
  pose proof (remove_newlines_none s) as H.
  rewrite has_char_all_chars in H. now apply negb_false_iff in H.
Qed.

End StringFacts.

Section RenderFacts.
Import SnapshotHtml.

Implicit Types (a b s t : string) (c : ascii).

(** *** Line 136 on a text made of pieces *)

Lemma collapse_app_l a b :
  ends_solid (remove_newlines a) = true ->
  collapse (a +:+ b) = collapse a +:+ collapse b.
Proof.
  intros Ha. unfold collapse. rewrite remove_newlines_app.
  now apply remove_indent_app_l.
Qed.

Lemma collapse_app_r a b :
  starts_solid (remove_newlines b) = true ->
  collapse (a +:+ b) = collapse a +:+ collapse b.
Proof.
  intros Hb. unfold collapse. rewrite remove_newlines_app.
  now apply remove_indent_app_r.
Qed.

Lemma starts_solid_newlines_app a b :
  starts_solid (remove_newlines a) = true ->
  starts_solid (remove_newlines (a +:+ b)) = true.
Proof. intros Ha. rewrite remove_newlines_app. now apply starts_solid_app. Qed.

Lemma remove_indent_no_space s :
  all_chars (fun c => negb (Ascii.eqb c space)) s = true ->
  remove_indent s = s.
Proof.
  induction s as [|c s IH]; [reflexivity|].
  cbn [all_chars]. intros H. apply andb_prop in H as [Hc Hs].
  apply negb_true_iff in Hc. now rewrite remove_indent_cons, IH.
Qed.

Lemma collapse_tidy s : tidy s = true -> collapse s = s.
Proof.
  unfold tidy, collapse. intros H. apply andb_prop in H as [Hn Hi].
  apply negb_true_iff in Hn, Hi.
  rewrite (remove_newlines_id s Hn). now apply remove_indent_id.
Qed.

(** *** Printed integers *)

Lemma int_char_plain c :
  is_int_char c = true ->
  negb (Ascii.eqb c space) = true /\ negb (Ascii.eqb c newline) = true /\
  negb (Ascii.eqb c "<") = true.
Proof.
  destruct c as [[] [] [] [] [] [] [] []]; vm_compute;
    intros H; try discriminate H; now repeat split.
Qed.

Lemma string_of_uint_chars (u : Decimal.uint) :
  all_chars is_int_char (NilEmpty.string_of_uint u) = true.
Proof.
  induction u; cbn [NilEmpty.string_of_uint all_chars]; now rewrite ?IHu.
Qed.

Lemma str_int_chars (n : Z) : all_chars is_int_char (str_int n) = true.
Proof.
  unfold str_int, NilZero.string_of_int, NilZero.string_of_uint.
  destruct (Z.to_int n) as [u|u]; destruct u; try reflexivity;
    cbn [all_chars]; rewrite ?andb_true_l; apply string_of_uint_chars.
Qed.

Lemma collapse_str_int (n : Z) : collapse (str_int n) = str_int n.
Proof.
  pose proof (str_int_chars n) as H. unfold collapse.
  rewrite remove_newlines_id.
  - apply remove_indent_no_space.
    revert H. apply all_chars_impl. intros c Hc. apply (int_char_plain c Hc).
  - rewrite has_char_all_chars. apply negb_false_iff.
    revert H. apply all_chars_impl. intros c Hc. apply (int_char_plain c Hc).
Qed.

(** *** Base64 text *)

Lemma get_has_char (i : nat) s c :
  String.get i s = Some c -> has_char c s = true.
Proof.
  revert i. induction s as [|c' s IH]; intros i; [discriminate|].
  destruct i as [|i]; cbn [String.get has_char].
  - intros [= ->]. now rewrite Ascii.eqb_refl.
  - intros H. rewrite (IH i H). apply orb_true_r.
Qed.

Lemma b64_char_ok (n : N) : is_b64 (b64_char n) = true.
Proof.
  unfold b64_char, is_b64.
  destruct (String.get (N.to_nat n) b64_alphabet) as [c|] eqn:Hget.
  - change (default "="%char (Some c)) with c.
    now rewrite (get_has_char _ _ _ Hget).
  - change (default "="%char None) with "="%char.
    rewrite Ascii.eqb_refl. apply orb_true_r.
Qed.

Lemma b64_groups_chars (bs : bytes) : all_chars is_b64 (b64_groups bs) = true.
Proof.
  assert (H : forall n (l : bytes),
             (length l < n)%nat -> all_chars is_b64 (b64_groups l) = true).
  { induction n as [|n IH]; intros l Hl; [lia|].
    destruct l as [|x [|y [|z l]]]; cbn [b64_groups all_chars];
      rewrite ?b64_char_ok; try reflexivity.
    apply IH. cbn [length] in Hl. lia. }
  apply (H (S (length bs))). lia.
Qed.

Lemma b2a_base64_chars (bs : bytes) :
  all_chars (fun c => is_b64 c || Ascii.eqb c newline) (b2a_base64 bs) = true.
Proof.
  unfold b2a_base64. rewrite all_chars_app. cbn [all_chars].
  rewrite Ascii.eqb_refl, orb_true_r, !andb_true_r.
  generalize (b64_groups_chars bs).
  apply all_chars_impl. intros c ->. reflexivity.
Qed.

Lemma encodebytes_chars (bs : bytes) :
  all_chars (fun c => is_b64 c || Ascii.eqb c newline) (encodebytes bs) = true.
Proof.
  unfold encodebytes.
  induction (_ <$> seq 0 _) as [|i l IH]; [reflexivity|].
  cbn [foldr]. now rewrite all_chars_app, IH, b2a_base64_chars.
Qed.

Lemma b64_not_lt c : is_b64 c = true -> negb (Ascii.eqb c "<") = true.
Proof.
  destruct c as [[] [] [] [] [] [] [] []]; vm_compute;
    intros H; try discriminate H; reflexivity.
Qed.

Lemma collapse_encodebytes_no_lt (bs : bytes) :
  has_char "<" (collapse (encodebytes bs)) = false.
Proof.
  rewrite has_char_all_chars. apply negb_false_iff. unfold collapse.
  apply remove_indent_all_chars.
  apply (all_chars_impl is_b64); [exact b64_not_lt|].
  apply remove_newlines_all_chars, encodebytes_chars.
Qed.

(** *** The template *)

Lemma collapse_template_class c name b w h t :
  strip (collapse (html_template (class_str (Some (String c name)))
                     ("data:image/png;base64," +:+ b) (img_style w h) t)) =
  "<div class='" +:+ collapse (String c name) +:+
  "' style='position:relative;'><img src='data:image/png;base64," +:+
  collapse b +:+ "' style='width:" +:+ str_int w +:+ "px;height:" +:+
  str_int h +:+ "px;' /><div style='" +:+ tt_style +:+ "'>" +:+
  collapse t +:+ "</div></div>".
Proof.
  unfold html_template, class_str, img_style. rewrite !append_assoc.
  set (CN := String c name).
  set (L0 := nl +:+ indent12 +:+ "<div class='").
  set (L1 := "' style='position:relative;'>" +:+ nl +:+ indent16 +:+
             "<img src='data:image/png;base64,").
  set (L2 := "' style='width:").
  set (L3 := "px;height:").
  set (L4 := "px;' />" +:+ nl +:+ indent16 +:+ "<div style='" +:+
             tt_style +:+ "'>").
  set (L5 := "</div>" +:+ nl +:+ indent12 +:+ "</div>" +:+ nl +:+ indent12).
  match goal with
  | |- strip (collapse ?x) = _ =>
      change x with
        (L0 +:+ (CN +:+ (L1 +:+ (b +:+ (L2 +:+ (str_int w +:+
           (L3 +:+ (str_int h +:+ (L4 +:+ (t +:+ L5))))))))))
  end.
  rewrite (collapse_app_l L0) by reflexivity.
  rewrite (collapse_app_r CN) by (apply starts_solid_newlines_app; reflexivity).
  rewrite (collapse_app_l L1) by reflexivity.
  rewrite (collapse_app_r b) by (apply starts_solid_newlines_app; reflexivity).
  rewrite (collapse_app_l L2) by reflexivity.
  rewrite (collapse_app_r (str_int w))
    by (apply starts_solid_newlines_app; reflexivity).
  rewrite (collapse_app_l L3) by reflexivity.
  rewrite (collapse_app_r (str_int h))
    by (apply starts_solid_newlines_app; reflexivity).
  rewrite (collapse_app_l L4) by reflexivity.
  rewrite (collapse_app_r t) by reflexivity.
  rewrite !collapse_str_int.
  rewrite strip_solid.
  - reflexivity.
  - apply starts_solid_app. reflexivity.
  - repeat apply ends_solid_app. reflexivity.
Qed.

(** *** Counting tags *)


Lemma prefix_lt_cons p c s :
  Ascii.eqb c "<"%char = false ->
  String.prefix (String "<"%char p) (String c s) = false.
Proof.
  intros Hc. cbn [String.prefix].
  destruct (Ascii.ascii_dec "<"%char c) as [<-|]; [|reflexivity].
  now rewrite Ascii.eqb_refl in Hc.
Qed.

Lemma count_sub_skip p a b :
  has_char "<"%char a = false ->
  count_sub (String "<"%char p) (a +:+ b) = count_sub (String "<"%char p) b.
Proof.
  induction a as [|c a IH]; [reflexivity|].
  cbn [has_char]. intros H. apply orb_false_elim in H as [Hc Ha].
  rewrite append_cons. cbn [count_sub].
  now rewrite (prefix_lt_cons p c _ Hc), IH.
Qed.

Lemma prefix_mismatch p a b :
  mismatch p a = true -> String.prefix p (a +:+ b) = false.
Proof.
  revert a. induction p as [|x p IH]; intros [|y a]; try discriminate.
  cbn [mismatch]. rewrite append_cons. cbn [String.prefix].
  destruct (Ascii.ascii_dec x y) as [->|Hne].
  - rewrite Ascii.eqb_refl. apply IH.
  - reflexivity.
Qed.

Lemma count_sub_miss p a b :
  mismatch p a = true -> has_char "<"%char a = false ->
  count_sub (String "<"%char p) (String "<"%char (a +:+ b)) =
  count_sub (String "<"%char p) b.
Proof.
  intros Hm Ha. cbn [count_sub String.prefix].
  destruct (Ascii.ascii_dec "<"%char "<"%char) as [_|Hne]; [|contradiction].
  now rewrite (prefix_mismatch p a b Hm), (count_sub_skip p a b Ha).
Qed.

Lemma prefix_self_app p s : String.prefix p (p +:+ s) = true.
Proof. apply prefix_app. now exists s. Qed.

Lemma count_sub_hit p s :
  has_char "<"%char p = false ->
  count_sub (String "<"%char p) (String "<"%char (p +:+ s)) =
  S (count_sub (String "<"%char p) s).
Proof.
  intros Hp. cbn [count_sub String.prefix].
  destruct (Ascii.ascii_dec "<"%char "<"%char) as [_|Hne]; [|contradiction].
  now rewrite prefix_self_app, (count_sub_skip p p s Hp).
Qed.

Lemma has_char_collapse c s :
  has_char c s = false -> has_char c (collapse s) = false.
Proof.
  rewrite !has_char_all_chars, !negb_false_iff. intros H. unfold collapse.
  apply remove_indent_all_chars.
  clear -H. induction s as [|c' s IH]; [reflexivity|].
  cbn [all_chars remove_newlines] in *. apply andb_prop in H as [Hc Hs].
  destruct (Ascii.eqb c' newline); [now apply IH|].
  cbn [all_chars]. now rewrite Hc, IH.
Qed.

Lemma str_int_no_lt (n : Z) : has_char "<"%char (str_int n) = false.
Proof.
  rewrite has_char_all_chars. apply negb_false_iff.
  generalize (str_int_chars n). apply all_chars_impl.
  intros c Hc. apply (int_char_plain c Hc).
Qed.

Lemma count_tags cn png w h t :
  has_char "<"%char (default "" cn) = false ->
  has_char "<"%char t = false ->
  count_sub "<img" (expected_html cn png w h t) = 1%nat /\
  count_sub "<div" (expected_html cn png w h t) = 2%nat.
Proof.
  intros Hc Ht.
  pose proof (collapse_encodebytes_no_lt png) as Hb.
  pose proof (str_int_no_lt w) as Hw. pose proof (str_int_no_lt h) as Hh.
  apply has_char_collapse in Ht.
  unfold expected_html.
  set (B := collapse (encodebytes png)) in *.
  set (T := collapse t) in *.
  set (W := str_int w) in *. set (H := str_int h) in *.
  set (rest :=
    "' style='width:" +:+ (W +:+ ("px;height:" +:+ (H +:+ ("px;' />" +:+
       String "<"%char (("div style='" +:+ tt_style +:+ "'>") +:+
                        (T +:+ "</div></div>"))))))).
  assert (Hrest_img : count_sub "<img" rest = 0%nat).
  { unfold rest. rewrite count_sub_skip by reflexivity.
    rewrite count_sub_skip by exact Hw.
    rewrite count_sub_skip by reflexivity.
    rewrite count_sub_skip by exact Hh.
    rewrite count_sub_skip by reflexivity.
    rewrite count_sub_miss by reflexivity.
    now rewrite count_sub_skip by exact Ht. }
  assert (Hrest_div : count_sub "<div" rest = 1%nat).
  { unfold rest. rewrite count_sub_skip by reflexivity.
    rewrite count_sub_skip by exact Hw.
    rewrite count_sub_skip by reflexivity.
    rewrite count_sub_skip by exact Hh.
    rewrite count_sub_skip by reflexivity.
    change (String "<"%char (("div style='" +:+ tt_style +:+ "'>") +:+
                             (T +:+ "</div></div>")))
      with (String "<"%char
              ("div" +:+ ((" style='" +:+ tt_style +:+ "'>") +:+
                          (T +:+ "</div></div>")))).
    rewrite count_sub_hit by reflexivity.
    rewrite count_sub_skip by reflexivity.
    now rewrite count_sub_skip by exact Ht. }
  assert (Hplain :
    count_sub "<img" ("<div " +:+ "" +:+ " style='position:relative;'>" +:+
                      "<img src='data:image/png;base64," +:+ B +:+ rest) = 1%nat /\
    count_sub "<div" ("<div " +:+ "" +:+ " style='position:relative;'>" +:+
                      "<img src='data:image/png;base64," +:+ B +:+ rest) = 2%nat).
  { split.
    - change ("<div " +:+ "" +:+ " style='position:relative;'>" +:+
              "<img src='data:image/png;base64," +:+ B +:+ rest)
        with (String "<"%char ("div  style='position:relative;'>" +:+
                String "<"%char ("img" +:+ (" src='data:image/png;base64," +:+
                                      (B +:+ rest))))).
      rewrite count_sub_miss by reflexivity.
      rewrite count_sub_hit by reflexivity.
      rewrite count_sub_skip by reflexivity.
      rewrite count_sub_skip by exact Hb.
      now rewrite Hrest_img.
    - change ("<div " +:+ "" +:+ " style='position:relative;'>" +:+
              "<img src='data:image/png;base64," +:+ B +:+ rest)
        with (String "<"%char ("div" +:+ ("  style='position:relative;'>" +:+
                String "<"%char ("img src='data:image/png;base64," +:+
                           (B +:+ rest))))).
      rewrite count_sub_hit by reflexivity.
      rewrite count_sub_skip by reflexivity.
      rewrite count_sub_miss by reflexivity.
      rewrite count_sub_skip by exact Hb.
      now rewrite Hrest_div. }
  destruct cn as [[|c name]|]; cbn [class_attr default] in *;
    try exact Hplain.
  apply has_char_collapse in Hc. set (C := collapse (String c name)) in *.
  rewrite !append_assoc. split.
  - change (count_sub "<img"
              (String "<" ("div class='" +:+ (C +:+
                 ("' style='position:relative;'>" +:+
                  String "<" ("img" +:+ (" src='data:image/png;base64," +:+
                                        (B +:+ rest))))))) = 1%nat).
    rewrite count_sub_miss by reflexivity.
    rewrite count_sub_skip by exact Hc.
    rewrite count_sub_skip by reflexivity.
    rewrite count_sub_hit by reflexivity.
    rewrite count_sub_skip by reflexivity.
    rewrite count_sub_skip by exact Hb.
    now rewrite Hrest_img.
  - change (count_sub "<div"
              (String "<" ("div" +:+ (" class='" +:+ (C +:+
                 ("' style='position:relative;'>" +:+
                  String "<" ("img src='data:image/png;base64," +:+
                             (B +:+ rest))))))) = 2%nat).
    rewrite count_sub_hit by reflexivity.
    rewrite count_sub_skip by reflexivity.
    rewrite count_sub_skip by exact Hc.
    rewrite count_sub_skip by reflexivity.
    rewrite count_sub_miss by reflexivity.
    rewrite count_sub_skip by exact Hb.
    now rewrite Hrest_div.
Qed.

Lemma collapse_template_plain b w h t :
  strip (collapse (html_template ""
                     ("data:image/png;base64," +:+ b) (img_style w h) t)) =
  "<div  style='position:relative;'><img src='data:image/png;base64," +:+
  collapse b +:+ "' style='width:" +:+ str_int w +:+ "px;height:" +:+
  str_int h +:+ "px;' /><div style='" +:+ tt_style +:+ "'>" +:+
  collapse t +:+ "</div></div>".
Proof.
  unfold html_template, img_style. rewrite !append_assoc.
  set (L0 := nl +:+ indent12 +:+ "<div  style='position:relative;'>" +:+
             nl +:+ indent16 +:+ "<img src='data:image/png;base64,").
  set (L2 := "' style='width:").
  set (L3 := "px;height:").
  set (L4 := "px;' />" +:+ nl +:+ indent16 +:+ "<div style='" +:+
             tt_style +:+ "'>").
  set (L5 := "</div>" +:+ nl +:+ indent12 +:+ "</div>" +:+ nl +:+ indent12).
  match goal with
  | |- strip (collapse ?x) = _ =>
      change x with
        (L0 +:+ (b +:+ (L2 +:+ (str_int w +:+
           (L3 +:+ (str_int h +:+ (L4 +:+ (t +:+ L5))))))))
  end.
  rewrite (collapse_app_l L0) by reflexivity.
  rewrite (collapse_app_r b) by (apply starts_solid_newlines_app; reflexivity).
  rewrite (collapse_app_l L2) by reflexivity.
  rewrite (collapse_app_r (str_int w))
    by (apply starts_solid_newlines_app; reflexivity).
  rewrite (collapse_app_l L3) by reflexivity.
  rewrite (collapse_app_r (str_int h))
    by (apply starts_solid_newlines_app; reflexivity).
  rewrite (collapse_app_l L4) by reflexivity.
  rewrite (collapse_app_r t) by reflexivity.
  rewrite !collapse_str_int.
  rewrite strip_solid.
  - reflexivity.
  - apply starts_solid_app. reflexivity.
  - repeat apply ends_solid_app. reflexivity.
Qed.

(** Line 136 applied to the filled-in template, for any fields. *)
Lemma collapse_template cn (png : bytes) w h t :
  strip (collapse (html_template (class_str cn)
                     ("data:image/png;base64," +:+ encodebytes png)
                     (img_style w h) t)) =
  expected_html cn png w h t.
Proof.
  unfold expected_html.
  destruct cn as [[|c name]|]; cbn [class_attr].
  - change (class_str (Some "")) with "".
    rewrite collapse_template_plain. reflexivity.
  - rewrite collapse_template_class. rewrite !append_assoc. reflexivity.
  - change (class_str None) with "".
    rewrite collapse_template_plain. reflexivity.
Qed.

Lemma b64_not_space c : is_b64 c = true -> negb (Ascii.eqb c space) = true.
Proof.
  destruct c as [[] [] [] [] [] [] [] []]; vm_compute;
    intros H; try discriminate H; reflexivity.
Qed.

Lemma collapse_encodebytes (bs : bytes) :
  collapse (encodebytes bs) = remove_newlines (encodebytes bs).
Proof.
  unfold collapse. apply remove_indent_no_space.
  apply (all_chars_impl is_b64); [exact b64_not_space|].
  apply remove_newlines_all_chars, encodebytes_chars.
Qed.

Lemma expected_rendered cn (png : bytes) w h t :
  tidy t = true -> tidy (default "" cn) = true ->
  expected_html cn png w h t = rendered_html cn png w h t.
Proof.
  intros Ht Hc. unfold expected_html, rendered_html, img_style.
  rewrite (collapse_tidy t Ht), collapse_encodebytes.
  assert (Hattr : class_attr cn = class_str cn).
  { destruct cn as [[|c name]|]; try reflexivity.
    cbn [class_attr class_str].
    now rewrite (collapse_tidy (String c name) Hc). }
  rewrite Hattr, !append_assoc. reflexivity.
Qed.

Section Rendering.
Context {sample : Type}.
Variable png_impl : Compress.ndarray sample -> res bytes.

(** The rendering of any snapshot whose buffer the PNG encoder
    accepts. *)
Lemma repr_html_expected (self : Snapshot sample) (png : bytes) :
  png_impl (data self) = Ok png ->
  _repr_html_ png_impl self =
  Ok (expected_html (class_name self) png (width self) (height self)
        (title self)).
Proof.
  intros Hpng. unfold _repr_html_. rewrite Hpng.
  f_equal. apply collapse_template.
Qed.

(** C9 (as amended): for a snapshot with integer width and height
    whose title and class name contain no newline and no four spaces
    in a row, the rendering is the one-line string written out in
    [rendered_html]: a container div with the class attribute when a
    class name was given, an img whose style is exactly
    width:{w}px;height:{h}px;, and an overlay div holding the title.
    It has no newline, and when title and class name have no "<" it
    holds "<img" once and "<div" twice.  Rendering is a function of the
    fields and of the encoder's bytes, so a second call gives the same
    string. *)
Theorem repr_html_tidy (self : Snapshot sample) (png : bytes) :
  png_impl (data self) = Ok png ->
  tidy (title self) = true ->
  tidy (default "" (class_name self)) = true ->
  let out := rendered_html (class_name self) png (width self) (height self)
               (title self) in
  _repr_html_ png_impl self = Ok out /\
  has_char newline out = false /\
  (has_char "<" (title self) = false ->
   has_char "<" (default "" (class_name self)) = false ->
   count_sub "<img" out = 1%nat /\ count_sub "<div" out = 2%nat).
Proof.
  intros Hpng Ht Hc out. subst out.
  rewrite <- (expected_rendered _ png (width self) (height self) _ Ht Hc).
  split; [now apply repr_html_expected|]. split.
  - rewrite <- collapse_template. apply collapsed_no_newline.
  - intros Hlt Hlc. now apply count_tags.
Qed.

End Rendering.

End RenderFacts.

Lemma repr_html_tidy_witness :
  SnapshotHtml._repr_html_ HtmlFixtures.hello_png
    (HtmlFixtures.snap "t" (Some "snapshot-1")) =
  Ok (SnapshotHtml.rendered_html (Some "snapshot-1") HtmlFixtures.hello
        10 10 "t").
Proof.
  exact (proj1 (repr_html_tidy HtmlFixtures.hello_png
                  (HtmlFixtures.snap "t" (Some "snapshot-1"))
                  HtmlFixtures.hello eq_refl eq_refl eq_refl)).
Defined.

(** The example of the spec: a 2x2 buffer, width 10, height 10 and
    title "t". *)
Example repr_html_example :
  SnapshotHtml._repr_html_ HtmlFixtures.hello_png (HtmlFixtures.snap "t" None) =
  Ok ("<div  style='position:relative;'>" +:+
      "<img src='data:image/png;base64,aGVsbG8=' " +:+
      "style='width:10px;height:10px;' />" +:+
      "<div style='position: absolute; top:0; left:0; padding:1px 3px; " +:+
      "background: #777; color:#fff; font-size: 90%; " +:+
      "font-family:sans-serif; '>t</div></div>").
Proof. vm_compute. reflexivity. Qed.

(** C9 (as stated) fails: a title with four spaces in a row and an
    img tag of its own is shown without the spaces, so the overlay
    does not contain the title text, and the string holds "<img"
    twice. *)
Lemma repr_html_title_collapsed :
  let title := "a    <img>" in
  exists out,
    SnapshotHtml._repr_html_ HtmlFixtures.hello_png
      (HtmlFixtures.snap title None) = Ok out /\
    Pruner.is_substring title out = false /\
    Pruner.is_substring "a<img></div></div>" out = true /\
    SnapshotHtml.count_sub "<img" out = 2%nat.
Proof.
  eexists. split; [vm_compute; reflexivity|].
  vm_compute. now repeat split.
Qed.

(** * Further properties *)

(** ** Image compressor *)

Section CompressorMore.
Import Compress CompressCalls.
Context {sample : Type}.
Variable png_impl : ndarray sample -> res bytes.
Variable jpg_impl : ndarray sample -> Z -> res (option bytes).
Variable jpegxl_encode : option (ndarray sample -> bool -> Z -> Z -> res bytes).

Implicit Types (array : ndarray sample) (quality : Z).

Abbreviation compress := (array2compressed png_impl jpg_impl jpegxl_encode).

(** The shapes the run of [array2compressed] can take. *)
Lemma array2compressed_cases array quality :
  let a := drop_alpha array in
  let m := compress array quality in
  (exists enc, jpegxl_encode = Some enc /\
     m = ([CallJxl a (100 <=? quality) 1 4],
          tagged "image/jxl" (enc a (100 <=? quality) 1 4))) \/
  (jpegxl_encode = None /\ 100 <= quality /\
     m = ([CallPng a], tagged "image/png" (png_impl a))) \/
  (jpegxl_encode = None /\ quality < 100 /\
     ((exists b, jpg_impl a quality = Ok (Some b) /\
         m = ([CallJpg a quality], Ok ("image/jpeg", b))) \/
      (exists e, jpg_impl a quality = Raise e /\
         m = ([CallJpg a quality], Raise e)) \/
      (jpg_impl a quality = Ok None /\
         m = ([CallJpg a quality; CallPng a],
              tagged "image/png" (png_impl a))))).
Proof.
  intros a m. subst m.
  unfold array2compressed, array2compressed_jxl, call_jpegxl_encode,
    jpegxl_usable, array2png, array2jpg.
  fold (drop_alpha array). fold a.
  destruct jpegxl_encode as [enc|].
  - left. exists enc. split; [reflexivity|].
    destruct (100 <=? quality); rewrite bind_call;
      now destruct (enc a _ 1 4).
  - right. destruct (Z.leb_spec 100 quality) as [Hq|Hq].
    + left. repeat split; [exact Hq|].
      rewrite bind_call. now destruct (png_impl a).
    + right. repeat split; [exact Hq|]. rewrite bind_call.
      destruct (jpg_impl a quality) as [[b|]|e].
      * left. now exists b.
      * right. right. split; [reflexivity|].
        rewrite bind_call. now destruct (png_impl a).
      * right. left. now exists e.
Qed.

(** X1: whatever the encoders and the quality, every external call is
    made on the buffer as lines 38-39 leave it; there are one or two
    calls, and the PNG encoder is called at most once. *)
Theorem calls_on_preprocessed_buffer array quality :
  let t := trace (compress array quality) in
  Forall (fun c => call_array c = drop_alpha array) t /\
  (1 <= length t <= 2)%nat /\
  (length (filter (fun c => is_png_call c = true) t) <= 1)%nat.
Proof.
  intros t. subst t.
  destruct (array2compressed_cases array quality)
    as [(enc & _ & ->)|[(_ & _ & ->)|(_ & _ & [(b & _ & ->)|[(e & _ & ->)|(_ & ->)]])]];
    cbn; repeat split; try lia; repeat constructor.
Qed.

(** X2: with quality >= 100 only lossless encoders are called: the
    PNG encoder, or the JPEG-XL encoder with lossless=True; the JPEG
    encoder is never called. *)
Theorem lossless_quality_calls array quality :
  100 <= quality ->
  Forall (fun c => is_lossless_call c = true) (trace (compress array quality)).
Proof.
  intros Hq.
  destruct (array2compressed_cases array quality)
    as [(enc & _ & ->)|[(_ & _ & ->)|(_ & Hlt & _)]]; [| |lia].
  - apply Z.leb_le in Hq. rewrite Hq. repeat constructor.
  - repeat constructor.
Qed.

(** X3: a returned mimetype is "image/jxl" exactly when the JPEG-XL
    encoder was imported; otherwise it is "image/png" or "image/jpeg",
    the latter only for quality < 100. *)
Theorem mimetype_of_result array quality mimetype (b : bytes) :
  outcome (compress array quality) = Ok (mimetype, b) ->
  match jpegxl_encode with
  | Some _ => mimetype = "image/jxl"
  | None =>
      mimetype = "image/png" \/ (mimetype = "image/jpeg" /\ quality < 100)
  end.
Proof.
  destruct (array2compressed_cases array quality)
    as [(enc & -> & ->)|[(-> & _ & ->)|(-> & Hlt & [(b' & _ & ->)|[(e & _ & ->)|(_ & ->)]])]];
    cbn [outcome snd]; unfold tagged.
  - destruct (enc _ _ _ _); [|discriminate]. now intros [= <- _].
  - destruct (png_impl _); [|discriminate]. intros [= <- _]. now left.
  - intros [= <- _]. now right.
  - discriminate.
  - destruct (png_impl _); [|discriminate]. intros [= <- _]. now left.
Qed.

Lemma drop_alpha_idempotent array : drop_alpha (drop_alpha array) = drop_alpha array.
Proof.
  unfold drop_alpha at 2 3. destruct (has_alpha array) eqn:Ha.
  - apply drop_alpha_plain.
    unfold has_alpha in *. unfold getitem_rgb.
    destruct (shape array) as [|h [|w [|c [|? ?]]]]; try discriminate Ha.
    cbn in Ha. apply Nat.eqb_eq in Ha. subst c. reflexivity.
  - now apply drop_alpha_plain.
Qed.

(** X4: dropping the alpha channel a second time changes nothing, so
    compressing an already preprocessed buffer gives the same calls and
    the same result as compressing the buffer itself. *)
Theorem array2compressed_drop_alpha array quality :
  drop_alpha (drop_alpha array) = drop_alpha array /\
  compress (drop_alpha array) quality = compress array quality.
Proof.
  split; [apply drop_alpha_idempotent|].
  unfold array2compressed. fold (drop_alpha array).
  fold (drop_alpha (drop_alpha array)). now rewrite drop_alpha_idempotent.
Qed.

End CompressorMore.

Section SlicingFacts.
Import Compress.
Context {sample : Type}.
Implicit Types (xs : list sample) (array : ndarray sample).

Lemma take_blocks_length rows stride keep xs :
  (keep <= stride)%nat -> (rows * stride <= length xs)%nat ->
  length (take_blocks rows stride keep xs) = (rows * keep)%nat.
Proof.
  intros Hk. revert xs. induction rows as [|rows IH]; intros xs Hlen;
    [reflexivity|].
  cbn [take_blocks]. rewrite length_app, !length_take, IH.
  - lia.
  - rewrite length_drop. lia.
Qed.

Lemma take_blocks_lookup rows stride keep xs (p k : nat) :
  (keep <= stride)%nat -> (rows * stride <= length xs)%nat ->
  (p < rows)%nat -> (k < keep)%nat ->
  take_blocks rows stride keep xs !! (keep * p + k)%nat =
  xs !! (stride * p + k)%nat.
Proof.
  intros Hk. revert xs p. induction rows as [|rows IH]; intros xs p Hlen Hp Hkk;
    [lia|].
  cbn [take_blocks].
  assert (Hfirst : length (take keep (take stride xs)) = keep)
    by (rewrite !length_take; lia).
  destruct p as [|p].
  - rewrite !Nat.mul_0_r, !Nat.add_0_l.
    rewrite lookup_app_l by lia.
    rewrite !lookup_take_lt by lia. reflexivity.
  - rewrite lookup_app_r by lia. rewrite Hfirst.
    replace (keep * S p + k - keep)%nat with (keep * p + k)%nat by lia.
    rewrite IH; [|rewrite length_drop; lia|lia|lia].
    rewrite lookup_drop. f_equal. lia.
Qed.

(** X5: on a full (h, w, 4) buffer the preprocessing keeps shape
    (h, w, 3), the dtype and, pixel by pixel and in order, the first
    three samples; only every fourth sample goes. *)
Theorem drop_alpha_keeps_rgb array (h w : nat) :
  shape array = [h; w; 4%nat] ->
  length (data array) = (h * w * 4)%nat ->
  shape (drop_alpha array) = [h; w; 3%nat] /\
  dtype (drop_alpha array) = dtype array /\
  length (data (drop_alpha array)) = (h * w * 3)%nat /\
  forall p k : nat, (p < h * w)%nat -> (k < 3)%nat ->
    data (drop_alpha array) !! (3 * p + k)%nat =
    data array !! (4 * p + k)%nat.
Proof.
  intros Hs Hlen. unfold drop_alpha. rewrite (has_alpha_shape _ _ _ Hs).
  unfold getitem_rgb. rewrite Hs. cbn [shape dtype data prod_dims foldr].
  change (Nat.min 3 4) with 3%nat. rewrite !Nat.mul_1_r.
  repeat split.
  - rewrite take_blocks_length; lia.
  - intros p k Hp Hk. apply take_blocks_lookup; lia.
Qed.

End SlicingFacts.

(** ** Output capture context *)

Section ContextMore.
Import OutputContext.

Implicit Types (w : world) (self other : nat) (o : RFBOutputContext).

Lemma inst_set_inst_ne self other o w :
  self <> other -> inst (set_inst self o w) other = inst w other.
Proof.
  intros Hne. unfold inst, set_inst; cbn [heap].
  now rewrite lookup_insert_ne.
Qed.

Lemma inst_append_ne name text self other w :
  self <> other -> inst (append_stream name text self w) other = inst w other.
Proof. intros Hne. unfold append_stream. now apply inst_set_inst_ne. Qed.

Lemma enter_other self other w :
  self <> other -> inst (__enter__ self w) other = inst w other.
Proof.
  intros Hne. unfold __enter__. destruct (capture_print (inst w self));
    [|reflexivity].
  rewrite inst_set_builtins_print. now apply inst_set_inst_ne.
Qed.

Section WithFormatter.
Variable format_exception : exc_info -> list string.

Abbreviation exit := (__exit__ format_exception).
Abbreviation scope := (with_ format_exception).

Lemma exit_other self other exc w :
  self <> other -> inst (exit self exc w).1 other = inst w other.
Proof.
  intros Hne. unfold __exit__.
  set (w1 := match capture_print (inst w self), _prev_print (inst w self) with
             | true, Some prev => _
             | _, _ => w
             end).
  assert (H1 : inst w1 other = inst w other).
  { subst w1. destruct (capture_print (inst w self)),
      (_prev_print (inst w self)); try reflexivity.
    rewrite inst_set_inst_ne by exact Hne. reflexivity. }
  destruct exc as [e|]; cbn [fst]; [|exact H1].
  unfold append_stderr. now rewrite inst_append_ne.
Qed.

(** Exit on an instance that is not capturing. *)
Lemma exit_not_capturing self exc w :
  capture_print (inst w self) = false ->
  builtins_print (exit self exc w).1 = builtins_print w /\
  _prev_print (inst (exit self exc w).1 self) = _prev_print (inst w self).
Proof.
  intros Hc. unfold __exit__. rewrite Hc.
  destruct exc as [e|]; cbn [fst]; [|now split].
  unfold append_stderr. now rewrite builtins_print_append, prev_print_append.
Qed.

(** X6: on an instance whose capture flag is off at entry and at
    exit, the scope neither installs nor restores anything: entry
    leaves the process as it is, and after exit the process-wide print
    and the saved reference are what the body left. *)
Theorem scope_without_capture self body w w' r :
  capture_print (inst w self) = false ->
  body w = (w', r) ->
  capture_print (inst w' self) = false ->
  __enter__ self w = w /\
  builtins_print (scope self body w).1 = builtins_print w' /\
  _prev_print (inst (scope self body w).1 self) = _prev_print (inst w' self).
Proof.
  intros Hc Hb Hc'.
  pose proof (enter_not_capturing self w Hc) as He.
  split; [exact He|]. rewrite <- He in Hb.
  rewrite (scope_world _ _ _ _ _ _ Hb).
  now apply exit_not_capturing.
Qed.

(** X7: when the body ends without an exception, [__exit__] returns
    a false value, the scope completes, and nothing is appended to the
    instance's outputs or written to standard output by the exit. *)
Theorem scope_normal_exit_silent self body w w' :
  body (__enter__ self w) = (w', Completed) ->
  (exit self None w').2 = false /\
  (scope self body w).2 = Completed /\
  outputs (inst (scope self body w).1 self) = outputs (inst w' self) /\
  sys_stdout (scope self body w).1 = sys_stdout w'.
Proof.
  intros Hb. split; [reflexivity|]. split.
  - unfold with_. now rewrite Hb.
  - rewrite (scope_world _ _ _ _ _ _ Hb). split.
    + rewrite exit_outputs. apply app_nil_r.
    + unfold __exit__. cbn [fst].
      now destruct (capture_print (inst w' self)), (_prev_print (inst w' self)).
Qed.

(** X8: scopes of two different capturing instances nest: inside,
    the inner instance's print is installed; the inner exit puts the
    outer instance's print back and the outer exit the original one,
    provided the body leaves the flags and saved references alone. *)
Theorem nested_scopes_restore a b body w w' r :
  a <> b ->
  capture_print (inst w a) = true ->
  capture_print (inst w b) = true ->
  body (__enter__ b (__enter__ a w)) = (w', r) ->
  capture_print (inst w' a) = true ->
  capture_print (inst w' b) = true ->
  _prev_print (inst w' a) = Some (builtins_print w) ->
  _prev_print (inst w' b) = Some (bound_print a) ->
  builtins_print (__enter__ b (__enter__ a w)) = bound_print b /\
  builtins_print (scope a (scope b body) w).1 = builtins_print w /\
  _prev_print (inst (scope a (scope b body) w).1 a) = None /\
  _prev_print (inst (scope a (scope b body) w).1 b) = None.
Proof.
  intros Hne Hca Hcb Hbody Hca' Hcb' Hpa Hpb.
  assert (Hcb1 : capture_print (inst (__enter__ a w) b) = true)
    by now rewrite enter_other.
  split; [apply (enter_capturing b _ Hcb1)|].
  set (exc := match r with Completed => None | Raised e => Some e end).
  assert (Hinner : (scope b body (__enter__ a w)).1 = (exit b exc w').1)
    by apply (scope_world _ _ _ _ _ _ Hbody).
  destruct (exit_restores format_exception b exc w' _ Hcb' Hpb) as [Hb1 Hb2].
  set (w2 := (exit b exc w').1) in *.
  assert (Hca2 : capture_print (inst w2 a) = true).
  { subst w2. rewrite exit_other by congruence. exact Hca'. }
  assert (Hpa2 : _prev_print (inst w2 a) = Some (builtins_print w)).
  { subst w2. rewrite exit_other by congruence. exact Hpa. }
  destruct (scope b body (__enter__ a w)) as [w3 r3] eqn:Hsc.
  cbn [fst] in Hinner. subst w3.
  rewrite (scope_world _ a (scope b body) w w2 r3 Hsc).
  set (exc3 := match r3 with Completed => None | Raised e => Some e end).
  destruct (exit_restores format_exception a exc3 w2 _ Hca2 Hpa2) as [Ha1 Ha2].
  split; [exact Ha1|]. split; [exact Ha2|].
  rewrite exit_other by exact Hne. exact Hb2.
Qed.

(** X9: exits in entry order do not nest: after [a.__enter__],
    [b.__enter__], [a.__exit__] the process-wide print is the original
    one although [b] still captures, and [b.__exit__] then installs
    [a.print] for good. *)
Theorem interleaved_exits_leak a b w :
  a <> b ->
  capture_print (inst w a) = true ->
  capture_print (inst w b) = true ->
  let w2 := __enter__ b (__enter__ a w) in
  let w3 := (exit a None w2).1 in
  let w4 := (exit b None w3).1 in
  builtins_print w3 = builtins_print w /\
  builtins_print w4 = bound_print a.
Proof.
  intros Hne Hca Hcb w2 w3 w4.
  destruct (enter_capturing a w Hca) as (Ha1 & Ha2 & Ha3 & _).
  assert (Hcb1 : capture_print (inst (__enter__ a w) b) = true)
    by now rewrite enter_other.
  destruct (enter_capturing b _ Hcb1) as (Hb1 & Hb2 & Hb3 & _).
  fold w2 in Hb1, Hb2, Hb3. rewrite Ha1 in Hb2.
  assert (Ha2' : _prev_print (inst w2 a) = Some (builtins_print w)).
  { subst w2. rewrite enter_other by congruence. exact Ha2. }
  assert (Ha3' : capture_print (inst w2 a) = true).
  { subst w2. rewrite enter_other by congruence. exact Ha3. }
  destruct (exit_restores format_exception a None w2 _ Ha3' Ha2') as [H3 _].
  fold w3 in H3. split; [exact H3|].
  assert (Hb2' : _prev_print (inst w3 b) = Some (bound_print a)).
  { subst w3. rewrite exit_other by exact Hne. exact Hb2. }
  assert (Hb3' : capture_print (inst w3 b) = true).
  { subst w3. rewrite exit_other by exact Hne. exact Hb3. }
  now destruct (exit_restores format_exception b None w3 _ Hb3' Hb2').
Qed.

End WithFormatter.
End ContextMore.

Section PrintOutcome.
Import OutputContext PrintKeywords.
Implicit Types (w : world) (self other : nat) (kwargs kw : gmap string pyval).

Lemma file_keyword : "file" ∈ print_keywords.
Proof.
  unfold print_keywords. rewrite !elem_of_union, !elem_of_singleton. tauto.
Qed.

Lemma dom_with_file kw v :
  dom (<["file" := v]> kw) ⊆ print_keywords <-> dom kw ⊆ print_keywords.
Proof.
  rewrite dom_insert_L. split; intros H x Hx.
  - apply H, elem_of_union. now right.
  - apply elem_of_union in Hx as [Hx|Hx]; [|now apply H].
    apply elem_of_singleton in Hx. subst x. apply file_keyword.
Qed.

Lemma text_or_ok dflt v :
  match text_or dflt v with
  | Ok _ => keyword_text_ok v = true
  | Raise e => keyword_text_ok v = false /\ e = TypeError
  end.
Proof. destruct v as [[]|]; cbn; auto. Qed.

(** X10: [print] returns exactly on the keyword arguments
    [print_accepts] describes (no flush, only sep, end and file, with
    sep and end None or a string) and raises TypeError on all
    others. *)
Theorem print_outcome self args kwargs w :
  (print self args kwargs w).2 =
  if print_accepts kwargs then Ok tt else Raise TypeError.
Proof.
  unfold print_accepts.
  destruct (kwargs !! "flush") as [v|] eqn:Hf.
  { rewrite bool_decide_eq_false_2 by discriminate. cbn [andb].
    unfold print, call_original_print.
    now rewrite (merge_flush_clash kwargs v Hf). }
  rewrite bool_decide_eq_true_2 by reflexivity. cbn [andb].
  rewrite (print_as_builtin self args kwargs w Hf).
  unfold builtin_print.
  rewrite lookup_insert_eq, !lookup_insert_ne by discriminate.
  cbn [stream_of].
  destruct (decide (dom kwargs ⊆ print_keywords)) as [Hd|Hd].
  - rewrite decide_True by now apply dom_with_file.
    rewrite bool_decide_eq_true_2 by exact Hd. cbn [andb].
    pose proof (text_or_ok " " (kwargs !! "sep")) as Hsep.
    pose proof (text_or_ok newline (kwargs !! "end")) as Hend.
    destruct (text_or " " (kwargs !! "sep")) as [sep|e1];
      destruct (text_or newline (kwargs !! "end")) as [end_|e2].
    + now rewrite Hsep, Hend.
    + destruct Hend as [-> ->]. now rewrite Hsep.
    + destruct Hsep as [-> ->]. reflexivity.
    + destruct Hsep as [-> ->]. reflexivity.
  - rewrite decide_False by (intros H; now apply dom_with_file in H).
    now rewrite bool_decide_eq_false_2 by exact Hd.
Qed.

End PrintOutcome.

Section PrintMore.
Import OutputContext.

Implicit Types (w : world) (self other : nat) (kwargs kw : gmap string pyval).

(** A [file] keyword has no effect at all, whatever its value:
    the text goes to the instance's outputs as without it. *)
Lemma print_ignores_file self args kwargs v w :
  print self args (<["file" := v]> kwargs) w = print self args kwargs w.
Proof. unfold print. now rewrite delete_insert_eq. Qed.

(** Pointing an accepted call at a stream changes where the text goes
    and nothing else. *)
Lemma builtin_print_to_stream args kw id file text :
  builtin_print args kw = Ok (file, text) ->
  builtin_print args (<["file" := PStream id]> kw) = Ok (Some id, text).
Proof.
  unfold builtin_print.
  rewrite lookup_insert_eq, !lookup_insert_ne by discriminate.
  destruct (decide (dom kw ⊆ print_keywords)) as [Hd|]; [|discriminate].
  rewrite decide_True.
  - cbn [stream_of].
    destruct (text_or " " (kw !! "sep")) as [sep|]; [|discriminate].
    destruct (text_or newline (kw !! "end")) as [end_|]; [|discriminate].
    destruct (stream_of (kw !! "file")) as [f|]; [|discriminate].
    now intros [= _ <-].
  - rewrite dom_insert_L. intros x Hx.
    apply elem_of_union in Hx as [Hx|Hx]; [|now apply Hd].
    apply elem_of_singleton in Hx. subst x. apply file_keyword.
Qed.

(** X11: inside the scope of a capturing instance, a call of the
    process-wide print that the standard print would accept (and that
    passes no flush) lands as one stdout entry with the very same text
    in the instance's outputs; standard output gets nothing. *)
Theorem print_in_scope_captured self args kwargs w file text :
  capture_print (inst w self) = true ->
  kwargs !! "flush" = None ->
  builtin_print args kwargs = Ok (file, text) ->
  let r := call_print args kwargs (__enter__ self w) in
  r.2 = Completed /\
  outputs (inst r.1 self) = outputs (inst w self) ++ [(stdout, text)] /\
  sys_stdout r.1 = sys_stdout w /\
  builtins_print r.1 = bound_print self.
Proof.
  intros Hc Hf Hb r. subst r.
  destruct (enter_capturing self w Hc) as (He & _ & _ & Hout).
  unfold call_print. rewrite He.
  rewrite (print_as_builtin self args kwargs _ Hf).
  rewrite (builtin_print_to_stream args kwargs string_io file text Hb).
  cbn [fst snd]. unfold append_stdout.
  rewrite outputs_append, Hout, builtins_print_append, He.
  repeat split. unfold __enter__. now rewrite Hc.
Qed.

(** X12: [print] touches nothing but the outputs of its own
    instance: the process-wide print, standard output, the capture flag,
    the saved reference and every other instance are as before; it
    appends one stdout entry when it returns and leaves the process
    unchanged when it raises. *)
Theorem print_effect self args kwargs w :
  let w' := (print self args kwargs w).1 in
  builtins_print w' = builtins_print w /\
  sys_stdout w' = sys_stdout w /\
  capture_print (inst w' self) = capture_print (inst w self) /\
  _prev_print (inst w' self) = _prev_print (inst w self) /\
  (forall other, self <> other -> inst w' other = inst w other) /\
  match (print self args kwargs w).2 with
  | Ok _ => exists text,
      outputs (inst w' self) = outputs (inst w self) ++ [(stdout, text)]
  | Raise _ => w' = w
  end.
Proof.
  unfold print. destruct (call_original_print _ _) as [text|e]; cbn [fst snd].
  - unfold append_stdout.
    rewrite outputs_append, prev_print_append.
    repeat split.
    + unfold append_stream. now rewrite inst_set_inst.
    + intros other Hne. unfold append_stream, inst, set_inst; cbn [heap].
      now rewrite lookup_insert_ne.
    + now exists text.
  - repeat split.
Qed.

End PrintMore.

(** ** Notebook pruner *)

Section PrunerMore.
Import Pruner.

Implicit Types (d v x : json) (es entries : list (string * json))
  (vs : list json) (k key : string).

(** *** Keys and their order *)

Lemma visit_items_keys (rec : json -> effect json)
    (d : list (string * json)) es :
  map fst (visit_items rec d es).1.1 = map fst es.
Proof.
  induction es as [|[key val] es IH]; [reflexivity|].
  cbn [visit_items].
  destruct (visit_item rec d key val) as [[val' mark] [e|]]; [reflexivity|].
  destruct (visit_items rec d es) as [[rest' mark'] e'].
  cbn [fst map] in *. now rewrite IH.
Qed.

Lemma dict_pop_keys key es :
  map fst (dict_pop key es) = filter (fun k => k ≠ key) (map fst es).
Proof.
  unfold dict_pop. induction es as [|[k0 v0] es IH]; [reflexivity|].
  cbn [map fst]. rewrite !filter_cons. cbn [fst].
  destruct (decide (k0 ≠ key)); cbn [map fst]; now rewrite IH.
Qed.

(** X13: the keys of the mapping passed in stay in their order; at
    most the widget key is taken out, and when the call ends in an
    exception no key is taken out at all, the removal being deferred to
    after the loop. *)
Theorem remove_keeps_key_order es es' :
  (remove_rfb_models_from_nb (JDict es)).1 = JDict es' ->
  (map fst es' = map fst es \/
   map fst es' = filter (fun k => k ≠ WIDGET) (map fst es)) /\
  ((remove_rfb_models_from_nb (JDict es)).2 <> None ->
   map fst es' = map fst es).
Proof.
  cbn [remove_rfb_models_from_nb].
  pose proof (visit_items_keys remove_rfb_models_from_nb es es) as Hk.
  destruct (visit_items remove_rfb_models_from_nb es es)
    as [[entries' mark] [e|]]; cbn [fst snd] in *.
  - intros [= <-]. split; [now left|]. intros _. exact Hk.
  - intros [= <-]. split; [|congruence].
    destruct mark; [right|now left].
    now rewrite dict_pop_keys, Hk.
Qed.

(** *** A second run *)

Lemma pruned_items_pop (g : json -> json) key es :
  pruned_items g (dict_pop key es) = dict_pop key (pruned_items g es).
Proof.
  unfold dict_pop. induction es as [|[k0 v0] es IH]; [reflexivity|].
  cbn [pruned_items]. rewrite !filter_cons. cbn [fst].
  destruct (decide (k0 ≠ key)); cbn [pruned_items]; now rewrite IH.
Qed.

Lemma snapshot_marked_html es es' :
  dict_get "text/html" es' = dict_get "text/html" es ->
  snapshot_marked es' = snapshot_marked es.
Proof. unfold snapshot_marked. now intros ->. Qed.

Lemma sibling_ok_html es es' :
  dict_get "text/html" es' = dict_get "text/html" es ->
  sibling_ok es' = sibling_ok es.
Proof. unfold sibling_ok. now intros ->. Qed.

Section Again.
Variable g : json -> json.

Lemma pruned_data_again es :
  (forall k x, In (k, x) es -> g (g x) = g x) ->
  pruned_data g (pruned_data g es) = pruned_data g es.
Proof.
  induction es as [|[k x] es IH]; intros Hg; [reflexivity|].
  cbn [pruned_data]. destruct (String.eqb k "data") eqn:Hk.
  - cbn [pruned_data]. rewrite Hk. f_equal. f_equal.
    destruct (truthy x) eqn:Hx.
    + rewrite (Hg k x (or_introl eq_refl)).
      now destruct (truthy (g x)).
    + now rewrite Hx.
  - cbn [pruned_data]. rewrite Hk. f_equal.
    apply IH. intros k' x' Hin. apply (Hg k'). now right.
Qed.

Lemma pruned_output_again v :
  (forall es, v = JDict es -> forall k x, In (k, x) es -> g (g x) = g x) ->
  pruned_output g (pruned_output g v) = pruned_output g v.
Proof.
  destruct v as [| | | | |es]; try reflexivity.
  intros Hg. cbn [pruned_output]. f_equal.
  apply pruned_data_again, (Hg es eq_refl).
Qed.

Lemma pruned_item_again key val :
  (forall vs, val = JList vs -> forall x, In x vs -> g (g x) = g x) ->
  (forall vs, val = JList vs ->
     forall out k x, In (JDict out) vs -> In (k, x) out -> g (g x) = g x) ->
  pruned_item g key (pruned_item g key val) = pruned_item g key val.
Proof.
  intros Hcells Houts. unfold pruned_item.
  destruct (String.eqb key "cells").
  { destruct val as [| | | |vs|]; try reflexivity.
    f_equal. rewrite map_map. apply map_ext_in.
    intros x Hx. now apply (Hcells vs eq_refl). }
  destruct (String.eqb key "outputs"); [|reflexivity].
  destruct val as [| | | |vs|]; try reflexivity.
  f_equal. rewrite map_map. apply map_ext_in.
  intros v Hv. apply pruned_output_again.
  intros out -> k x. now apply (Houts vs eq_refl out k x).
Qed.

Lemma pruned_items_again es :
  (forall k vs x, In (k, JList vs) es -> In x vs -> g (g x) = g x) ->
  (forall k vs out k' x, In (k, JList vs) es -> In (JDict out) vs ->
                         In (k', x) out -> g (g x) = g x) ->
  pruned_items g (pruned_items g es) = pruned_items g es.
Proof.
  induction es as [|[key val] es IH]; intros Hcells Houts; [reflexivity|].
  cbn [pruned_items]. rewrite pruned_item_again, IH; try reflexivity.
  - intros k vs x Hin. apply (Hcells k vs). now right.
  - intros k vs out k' x Hin. apply (Houts k vs out k'). now right.
  - intros vs -> x. apply (Hcells key vs). now left.
  - intros vs -> out k x. apply (Houts key vs out k). now left.
Qed.
End Again.

Lemma pruned_idempotent d : pruned (pruned d) = pruned d.
Proof.
  induction d as [d IH] using size_induction.
  destruct d as [| | | | |es]; try reflexivity.
  rewrite !pruned_dict. f_equal.
  assert (Hitems : pruned_items pruned (pruned_items pruned es) =
                   pruned_items pruned es).
  { apply pruned_items_again.
    - intros k vs x Hin Hx. apply IH.
      etransitivity; [apply (size_in_list _ _ Hx)|].
      apply (size_in_dict _ _ _ Hin).
    - intros k vs out k' x Hin Hout Hx. apply IH.
      etransitivity; [apply (size_in_dict _ _ _ Hx)|].
      etransitivity; [apply (size_in_list _ _ Hout)|].
      apply (size_in_dict _ _ _ Hin). }
  unfold pruned_entries at 1.
  rewrite has_key_pruned_entries.
  rewrite (snapshot_marked_html es _ (html_pruned_entries es)).
  replace (has_key WIDGET es && negb (snapshot_marked es) && snapshot_marked es)
    with false by (now destruct (has_key WIDGET es), (snapshot_marked es)).
  unfold pruned_entries.
  destruct (has_key WIDGET es && snapshot_marked es); [|exact Hitems].
  now rewrite pruned_items_pop, Hitems.
Qed.

Section Shaped.
Variables (g : json -> json) (ok : json -> bool).

Lemma data_ok_pruned es :
  data_ok ok es = true ->
  (forall k x, In (k, x) es -> ok x = true -> ok (g x) = true) ->
  data_ok ok (pruned_data g es) = true.
Proof.
  induction es as [|[k x] es IH]; intros Hok Hg; [reflexivity|].
  cbn [data_ok pruned_data] in *. destruct (String.eqb k "data") eqn:Hk.
  - cbn [data_ok]. rewrite Hk. destruct (truthy x) eqn:Hx.
    + destruct (truthy (g x)); [|reflexivity].
      now apply (Hg k x (or_introl eq_refl)).
    + now rewrite Hx.
  - cbn [data_ok]. rewrite Hk. apply IH; [exact Hok|].
    intros k' x' Hin. apply (Hg k'). now right.
Qed.

Lemma output_ok_pruned v :
  output_ok ok v = true ->
  (forall es, v = JDict es ->
     forall k x, In (k, x) es -> ok x = true -> ok (g x) = true) ->
  output_ok ok (pruned_output g v) = true.
Proof.
  destruct v as [| | | | |es]; try discriminate.
  intros Hok Hg. cbn [output_ok pruned_output] in *.
  now apply data_ok_pruned, (Hg es eq_refl).
Qed.

Lemma item_ok_pruned (d d' : list (string * json)) key val :
  sibling_ok d' = sibling_ok d ->
  item_ok ok d key val = true ->
  (forall vs, val = JList vs ->
     forall x, In x vs -> ok x = true -> ok (g x) = true) ->
  (forall vs, val = JList vs ->
     forall out k x, In (JDict out) vs -> In (k, x) out ->
                     ok x = true -> ok (g x) = true) ->
  item_ok ok d' key (pruned_item g key val) = true.
Proof.
  intros Hsib. unfold item_ok, pruned_item. intros Hok Hcells Houts.
  destruct (String.eqb key "cells").
  { destruct val as [| | | |vs|]; try reflexivity.
    rewrite forallb_forall in *. intros y Hy.
    apply in_map_iff in Hy as (x & <- & Hx).
    apply (Hcells vs eq_refl x Hx). now apply Hok. }
  destruct (String.eqb key "outputs").
  { destruct val as [| | | |vs|]; try reflexivity.
    rewrite forallb_forall in *. intros y Hy.
    apply in_map_iff in Hy as (v & <- & Hv).
    apply output_ok_pruned; [now apply Hok|].
    intros out -> k x. now apply (Houts vs eq_refl out k x). }
  destruct (String.eqb key WIDGET); [|reflexivity].
  now rewrite Hsib.
Qed.

Lemma items_ok_pruned (d d' : list (string * json)) es :
  sibling_ok d' = sibling_ok d ->
  items_ok ok d es = true ->
  (forall k vs x, In (k, JList vs) es -> In x vs -> ok x = true ->
                  ok (g x) = true) ->
  (forall k vs out k' x, In (k, JList vs) es -> In (JDict out) vs ->
                         In (k', x) out -> ok x = true -> ok (g x) = true) ->
  items_ok ok d' (pruned_items g es) = true.
Proof.
  intros Hsib. induction es as [|[key val] es IH]; intros Hok Hcells Houts;
    [reflexivity|].
  cbn [items_ok pruned_items] in *. apply andb_prop in Hok as [Hitem Hrest].
  rewrite (item_ok_pruned d d' key val Hsib Hitem), IH; try reflexivity.
  - exact Hrest.
  - intros k vs x Hin. apply (Hcells k vs). now right.
  - intros k vs out k' x Hin. apply (Houts k vs out k'). now right.
  - intros vs -> x. apply (Hcells key vs). now left.
  - intros vs -> out k x. apply (Houts key vs out k). now left.
Qed.

Lemma items_ok_pop (d : list (string * json)) key es :
  items_ok ok d es = true -> items_ok ok d (dict_pop key es) = true.
Proof.
  unfold dict_pop. induction es as [|[k0 v0] es IH]; [reflexivity|].
  cbn [items_ok]. intros H. apply andb_prop in H as [Hitem Hrest].
  rewrite filter_cons. cbn [fst].
  destruct (decide (k0 ≠ key)); [|now apply IH].
  cbn [items_ok]. now rewrite Hitem, IH.
Qed.
End Shaped.

Lemma pruned_well_shaped d :
  well_shaped d = true -> well_shaped (pruned d) = true.
Proof.
  induction d as [d IH] using size_induction.
  destruct d as [| | | | |es]; try discriminate.
  intros Hok. rewrite pruned_dict. cbn [well_shaped] in *.
  assert (Hsib : sibling_ok (pruned_entries es) = sibling_ok es)
    by apply sibling_ok_html, html_pruned_entries.
  assert (Hitems : items_ok well_shaped (pruned_entries es)
                     (pruned_items pruned es) = true).
  { apply (items_ok_pruned pruned well_shaped es _ es Hsib Hok).
    - intros k vs x Hin Hx. apply IH.
      etransitivity; [apply (size_in_list _ _ Hx)|].
      apply (size_in_dict _ _ _ Hin).
    - intros k vs out k' x Hin Hout Hx. apply IH.
      etransitivity; [apply (size_in_dict _ _ _ Hx)|].
      etransitivity; [apply (size_in_list _ _ Hout)|].
      apply (size_in_dict _ _ _ Hin). }
  unfold pruned_entries at 2.
  destruct (has_key WIDGET es && snapshot_marked es); [|exact Hitems].
  now apply items_ok_pop.
Qed.

(** X14: on a well-shaped document the result is well-shaped again
    and a second call changes nothing and raises nothing. *)
Theorem remove_twice d :
  well_shaped d = true ->
  let d' := (remove_rfb_models_from_nb d).1 in
  well_shaped d' = true /\
  remove_rfb_models_from_nb d' = (d', None).
Proof.
  intros Hok d'. subst d'. rewrite (remove_well_shaped d Hok). cbn [fst].
  pose proof (pruned_well_shaped d Hok) as Hok'.
  split; [exact Hok'|].
  now rewrite (remove_well_shaped _ Hok'), pruned_idempotent.
Qed.

End PrunerMore.

(** ** Snapshot rendering *)

Section IndentRuns.
Import SnapshotHtml SnapshotBundle.
Implicit Types (a b s t p : string) (c q : ascii).

Lemma prefix_spaces (n : nat) s :
  String.prefix (spaces n) s = (n <=? leading_spaces s)%nat.
Proof.
  revert s. induction n as [|n IH]; intros s; [now destruct s|].
  destruct s as [|c s]; [reflexivity|].
  cbn [spaces String.prefix leading_spaces].
  destruct (Ascii.ascii_dec space c) as [<-|Hne].
  - rewrite Ascii.eqb_refl. apply IH.
  - destruct (Ascii.eqb_spec c space) as [->|]; [contradiction|reflexivity].
Qed.

Lemma prefix_four_spaces s :
  String.prefix "    " s = (4 <=? leading_spaces s)%nat.
Proof. apply (prefix_spaces 4). Qed.

Lemma leading_spaces_four c1 c2 c3 c4 s :
  Ascii.eqb c1 space && Ascii.eqb c2 space &&
  Ascii.eqb c3 space && Ascii.eqb c4 space = false ->
  (leading_spaces (String c1 (String c2 (String c3 (String c4 s)))) < 4)%nat.
Proof.
  cbn [leading_spaces].
  destruct (Ascii.eqb c1 space), (Ascii.eqb c2 space), (Ascii.eqb c3 space),
    (Ascii.eqb c4 space); cbn; intros H; try discriminate H; lia.
Qed.

(** What is left of a run of spaces is its length modulo four. *)
Lemma leading_spaces_remove_indent s :
  leading_spaces (remove_indent s) = (leading_spaces s mod 4)%nat.
Proof.
  induction s as [s IH] using string_length_ind.
  destruct s as [|c1 [|c2 [|c3 [|c4 s]]]].
  - reflexivity.
  - cbn. now destruct (Ascii.eqb c1 space).
  - cbn. now destruct (Ascii.eqb c1 space), (Ascii.eqb c2 space).
  - cbn. now destruct (Ascii.eqb c1 space), (Ascii.eqb c2 space),
      (Ascii.eqb c3 space).
  - rewrite remove_indent_four.
    destruct (Ascii.eqb c1 space && Ascii.eqb c2 space &&
              Ascii.eqb c3 space && Ascii.eqb c4 space) eqn:Hall.
    + rewrite IH by (cbn [String.length]; lia).
      apply andb_prop in Hall as [Hall H4]. apply andb_prop in Hall as [Hall H3].
      apply andb_prop in Hall as [H1 H2].
      cbn [leading_spaces]. rewrite H1, H2, H3, H4.
      change (S (S (S (S (leading_spaces s))))) with (4 + leading_spaces s)%nat.
      replace (4 + leading_spaces s)%nat with (leading_spaces s + 1 * 4)%nat by lia.
      now rewrite Nat.Div0.mod_add.
    + pose proof (leading_spaces_four c1 c2 c3 c4 s Hall) as Hlt.
      rewrite (Nat.mod_small _ _ Hlt).
      set (s1 := String c2 (String c3 (String c4 s))) in *.
      cbn [leading_spaces] in *. destruct (Ascii.eqb c1 space); [|reflexivity].
      rewrite IH by (subst s1; cbn [String.length]; lia).
      rewrite Nat.mod_small by lia. reflexivity.
Qed.

(** The tail of a result is the result for a shorter text. *)
Lemma remove_indent_tail s c r :
  remove_indent s = String c r ->
  exists u, (String.length u < String.length s)%nat /\ r = remove_indent u.
Proof.
  revert c r. induction s as [s IH] using string_length_ind. intros c r Hr.
  destruct s as [|d1 [|d2 [|d3 [|d4 t]]]]; try discriminate Hr.
  - injection Hr as _ <-. exists "". cbn. split; [lia|reflexivity].
  - injection Hr as _ <-. exists (String d2 "").
    cbn. split; [lia|reflexivity].
  - injection Hr as _ <-. exists (String d2 (String d3 "")).
    cbn. split; [lia|reflexivity].
  - rewrite remove_indent_four in Hr.
    destruct (_ && _ && _ && _).
    + destruct (IH t) with (c := c) (r := r) as (u & Hu & ->);
        [cbn [String.length]; lia|exact Hr|].
      exists u. split; [cbn [String.length] in *; lia|reflexivity].
    + injection Hr as _ <-.
      exists (String d2 (String d3 (String d4 t))).
      split; [cbn [String.length]; lia|reflexivity].
Qed.

Lemma remove_indent_no_run s :
  Pruner.is_substring "    " (remove_indent s) = false.
Proof.
  induction s as [s IH] using string_length_ind.
  assert (Hhead : String.prefix "    " (remove_indent s) = false).
  { rewrite prefix_four_spaces, leading_spaces_remove_indent.
    apply Nat.leb_gt. apply Nat.mod_upper_bound. lia. }
  destruct (remove_indent s) as [|c r] eqn:Hr; [reflexivity|].
  cbn [Pruner.is_substring]. rewrite Hhead. cbn [orb].
  destruct (remove_indent_tail s c r Hr) as (u & Hu & ->). now apply IH.
Qed.

End IndentRuns.

Section SnapshotMarker.
Import SnapshotHtml.
Implicit Types (a b s t p : string) (c q : ascii).





End SnapshotMarker.

Section SnapshotMore.
Import SnapshotHtml SnapshotBundle.
Implicit Types (a b s t p : string) (c : ascii).


Section Rendering.
Context {sample : Type}.
Variable png_impl : Compress.ndarray sample -> res bytes.

(** X15: for any title and class name the rendering is
    [expected_html]: the template on one line with title, class name
    and base64 text collapsed as line 136 collapses the whole text; an
    exception of the PNG encoder propagates. *)
Theorem repr_html_any_fields (self : Snapshot sample) :
  _repr_html_ png_impl self =
  match png_impl (data self) with
  | Ok png =>
      Ok (expected_html (class_name self) png (width self) (height self)
            (title self))
  | Raise e => Raise e
  end.
Proof.
  destruct (png_impl (data self)) as [png|e] eqn:Hpng.
  - now apply repr_html_expected.
  - unfold _repr_html_. now rewrite Hpng.
Qed.



End Rendering.
End SnapshotMore.

Section SnapshotInvariants.
Import SnapshotHtml SnapshotBundle.
Implicit Types (a b s t p : string) (c : ascii).

Lemma lstrip_suffix s : exists t, s = t +:+ lstrip s.
Proof.
  induction s as [|c s IH]; [now exists ""|].
  cbn [lstrip]. destruct (is_whitespace c); [|now exists ""].
  destruct IH as [t Ht]. exists (String c t).
  rewrite append_cons. now rewrite <- Ht.
Qed.

Lemma rstrip_prefix s : exists t, s = rstrip s +:+ t.
Proof.
  induction s as [|c s IH]; [now exists ""|].
  destruct IH as [t Ht]. cbn [rstrip].
  destruct (rstrip s) as [|c' r].
  - rewrite append_nil in Ht. subst t.
    destruct (is_whitespace c); [now exists (String c s)|now exists s].
  - exists t. rewrite append_cons. now rewrite <- Ht.
Qed.

(** What occurs in the stripped text occurs in the text. *)
Lemma is_substring_strip p s :
  Pruner.is_substring p s = false -> Pruner.is_substring p (strip s) = false.
Proof.
  intros Hs. destruct (Pruner.is_substring p (strip s)) eqn:Hp; [|reflexivity].
  apply is_substring_spec in Hp as (a & b & Hab).
  destruct (lstrip_suffix s) as [t1 H1].
  destruct (rstrip_prefix (lstrip s)) as [t2 H2].
  assert (Hin : Pruner.is_substring p s = true).
  { apply is_substring_spec. exists (t1 +:+ a), (b +:+ t2).
    rewrite H1 at 1. rewrite H2 at 1. unfold strip in Hab. rewrite Hab.
    now rewrite !append_assoc. }
  congruence.
Qed.

Section Rendering.
Context {sample : Type}.
Variable png_impl : Compress.ndarray sample -> res bytes.

(** X17: whatever the fields, a rendering holds no newline and no
    four spaces in a row. *)
Theorem repr_html_no_indent_run (self : Snapshot sample) out :
  _repr_html_ png_impl self = Ok out ->
  has_char newline out = false /\ Pruner.is_substring "    " out = false.
Proof.
  unfold _repr_html_. destruct (png_impl (data self)) as [png|e];
    [|discriminate].
  set (html := html_template _ _ _ _).
  intros H. replace out with (strip (remove_indent (remove_newlines html)))
    by congruence.
  split.
  - apply collapsed_no_newline.
  - apply is_substring_strip, remove_indent_no_run.
Qed.


End Rendering.
End SnapshotInvariants.

Section PartialRuns.
Import Pruner.

Lemma each_stops (f : json -> effect json) (g : json -> json)
    (pre : list json) (bad bad' : json) (post : list json) (e : exn) :
  (forall v, In v pre -> f v = (g v, None)) ->
  f bad = (bad', Some e) ->
  each f (pre ++ bad :: post) = (map g pre ++ bad' :: post, Some e).
Proof.
  intros Hpre Hbad. induction pre as [|v pre IH]; cbn [each app map].
  - now rewrite Hbad.
  - rewrite (Hpre v) by now left.
    rewrite IH; [reflexivity|]. intros; apply Hpre; now right.
Qed.

(** X19: the change is made in place and an exception stops it half
    way: when a cell of the "cells" list makes the call raise, the
    well-shaped cells before it have been pruned, the failing cell is
    as the call on it left it, the cells after it are untouched, and
    the exception is the one that cell raised. *)
Theorem remove_stops_at_failing_cell
    (pre : list json) (bad : json) (post : list json) (e : exn) :
  Forall (fun v => well_shaped v = true) pre ->
  (remove_rfb_models_from_nb bad).2 = Some e ->
  remove_rfb_models_from_nb (JDict [("cells", JList (pre ++ bad :: post))]) =
  (JDict [("cells",
           JList (map pruned pre ++
                  (remove_rfb_models_from_nb bad).1 :: post))],
   Some e).
Proof.
  intros Hpre Hbad. cbn [remove_rfb_models_from_nb visit_items].
  unfold visit_item. cbn [String.eqb Ascii.eqb Bool.eqb].
  rewrite (each_stops remove_rfb_models_from_nb pruned pre bad
             (remove_rfb_models_from_nb bad).1 post e).
  - reflexivity.
  - intros v Hv. apply remove_well_shaped.
    rewrite Forall_forall in Hpre. apply Hpre. now apply list_elem_of_In.
  - destruct (remove_rfb_models_from_nb bad) as [bad' err].
    cbn [fst snd] in *. now subst err.
Qed.

End PartialRuns.

(** ** The further properties on concrete inputs *)

Lemma lossless_quality_calls_witness :
  Forall (fun c => CompressCalls.is_lossless_call c = true)
    (Compress.trace
       (Compress.array2compressed Fixtures.demo_png Fixtures.demo_jpg None
          Fixtures.rgba_1x2 100)).
Proof.
  apply (lossless_quality_calls Fixtures.demo_png Fixtures.demo_jpg None
           Fixtures.rgba_1x2 100).
  lia.
Defined.

Lemma mimetype_of_result_witness :
  "image/jpeg" = "image/png" \/ ("image/jpeg" = "image/jpeg" /\ 90 < 100).
Proof.
  apply (mimetype_of_result Fixtures.demo_png Fixtures.demo_jpg None
           Fixtures.grey_1x2 90 "image/jpeg"
           [Byte.x4a; Byte.x01; Byte.x01]).
  reflexivity.
Defined.

Lemma drop_alpha_keeps_rgb_witness :
  Compress.data (Compress.drop_alpha Fixtures.rgba_1x2) !! 4%nat =
  Compress.data Fixtures.rgba_1x2 !! 5%nat.
Proof.
  apply (proj2 (proj2 (proj2
    (drop_alpha_keeps_rgb Fixtures.rgba_1x2 1 2 eq_refl eq_refl))) 1%nat 1%nat);
    lia.
Defined.

Lemma scope_without_capture_witness :
  OutputContext.builtins_print
    (OutputContext.with_ CtxFixtures.demo_format 1 CtxFixtures.body_raise
       MoreFixtures.untouched).1
  = OutputContext.original_print.
Proof.
  apply (proj1 (proj2
    (scope_without_capture CtxFixtures.demo_format 1%nat CtxFixtures.body_raise
       MoreFixtures.untouched MoreFixtures.untouched
       (OutputContext.Raised CtxFixtures.value_error)
       eq_refl eq_refl eq_refl))).
Defined.

Lemma scope_normal_exit_silent_witness :
  OutputContext.outputs
    (OutputContext.inst
       (OutputContext.with_ CtxFixtures.demo_format 1 CtxFixtures.body_pass
          CtxFixtures.capturing).1 1) = [].
Proof.
  apply (proj1 (proj2 (proj2
    (scope_normal_exit_silent CtxFixtures.demo_format 1%nat
       CtxFixtures.body_pass CtxFixtures.capturing _ eq_refl)))).
Defined.

Lemma nested_scopes_restore_witness :
  OutputContext.builtins_print
    (OutputContext.with_ CtxFixtures.demo_format 1
       (OutputContext.with_ CtxFixtures.demo_format 2 CtxFixtures.body_pass)
       MoreFixtures.two_capturing).1
  = OutputContext.original_print.
Proof.
  refine (proj1 (proj2
    (nested_scopes_restore CtxFixtures.demo_format 1%nat 2%nat
       CtxFixtures.body_pass MoreFixtures.two_capturing _
       OutputContext.Completed _ _ _ eq_refl _ _ _ _))).
  - discriminate.
  - reflexivity.
  - reflexivity.
  - vm_compute. reflexivity.
  - vm_compute. reflexivity.
  - vm_compute. reflexivity.
  - vm_compute. reflexivity.
Defined.

Lemma interleaved_exits_leak_witness :
  OutputContext.builtins_print
    (OutputContext.__exit__ CtxFixtures.demo_format 2 None
       (OutputContext.__exit__ CtxFixtures.demo_format 1 None
          (OutputContext.__enter__ 2
             (OutputContext.__enter__ 1 MoreFixtures.two_capturing))).1).1
  = OutputContext.bound_print 1.
Proof.
  refine (proj2 (interleaved_exits_leak CtxFixtures.demo_format 1%nat 2%nat
                   MoreFixtures.two_capturing _ _ _)).
  - discriminate.
  - reflexivity.
  - reflexivity.
Defined.

Lemma print_in_scope_captured_witness :
  OutputContext.sys_stdout
    (OutputContext.call_print
       [OutputContext.PStr "a"; OutputContext.PStr "b"] ∅
       (OutputContext.__enter__ 1 CtxFixtures.capturing)).1 = [].
Proof.
  refine (proj1 (proj2 (proj2
    (print_in_scope_captured 1%nat
       [OutputContext.PStr "a"; OutputContext.PStr "b"] ∅
       CtxFixtures.capturing None ("a b" +:+ OutputContext.newline)
       _ _ _)))).
  - reflexivity.
  - reflexivity.
  - vm_compute. reflexivity.
Defined.

Lemma remove_keeps_key_order_witness :
  map fst [("text/html", NbFixtures.snapshot_html)] =
    map fst (MoreFixtures.data_with_html "<div class='snapshot-foo'>...</div>")
  \/
  map fst [("text/html", NbFixtures.snapshot_html)] =
    filter (fun k => k ≠ Pruner.WIDGET)
      (map fst
         (MoreFixtures.data_with_html "<div class='snapshot-foo'>...</div>")).
Proof.
  apply (proj1 (remove_keeps_key_order
                  (MoreFixtures.data_with_html
                     "<div class='snapshot-foo'>...</div>")
                  [("text/html", NbFixtures.snapshot_html)] eq_refl)).
Defined.

Lemma remove_twice_witness :
  Pruner.remove_rfb_models_from_nb
    (Pruner.remove_rfb_models_from_nb NbFixtures.notebook).1 =
  ((Pruner.remove_rfb_models_from_nb NbFixtures.notebook).1, None).
Proof.
  apply (proj2 (remove_twice NbFixtures.notebook eq_refl)).
Defined.


Lemma repr_html_no_indent_run_witness :
  Pruner.is_substring "    "
    (SnapshotHtml.expected_html None HtmlFixtures.hello 10 10 "a     b")
  = false.
Proof.
  apply (proj2 (repr_html_no_indent_run HtmlFixtures.hello_png
                  (HtmlFixtures.snap "a     b" None) _
                  (repr_html_expected HtmlFixtures.hello_png
                     (HtmlFixtures.snap "a     b" None) HtmlFixtures.hello
                     eq_refl))).
Defined.


Lemma remove_stops_at_failing_cell_witness :
  Pruner.remove_rfb_models_from_nb
    (Pruner.JDict
       [("cells",
         Pruner.JList
           ([Pruner.JDict (MoreFixtures.data_with_html
                             "<div class='snapshot-foo'>")] ++
            Pruner.JNum 1 ::
            [Pruner.JDict (MoreFixtures.data_with_html
                             "<div class='snapshot-foo'>")]))]) =
  (Pruner.JDict
     [("cells",
       Pruner.JList
         [Pruner.JDict
            [("text/html",
              Pruner.JList [Pruner.JStr "<div class='snapshot-foo'>"])];
          Pruner.JNum 1;
          Pruner.JDict (MoreFixtures.data_with_html
                          "<div class='snapshot-foo'>")])],
   Some AttributeError).
Proof.
  apply (remove_stops_at_failing_cell
           [Pruner.JDict (MoreFixtures.data_with_html
                            "<div class='snapshot-foo'>")]
           (Pruner.JNum 1)
           [Pruner.JDict (MoreFixtures.data_with_html
                            "<div class='snapshot-foo'>")]
           AttributeError).
  - repeat constructor.
  - reflexivity.
Defined.
